(** * finance-equalizer-server: the routes of [index.js] and their store

    The server is a set of Express routes over one MongoDB collection
    ([financeDB.finances]).  The routes are embedded as computations in a
    state-and-exception monad over an abstract collection interface (the
    driver's [insertOne], [find], [findOne], [deleteOne], [updateOne],
    [aggregate]); the aggregation pipelines are embedded stage by stage
    ([$match], [$addFields], [$group], [$sort], [$facet]) as list functions;
    an in-memory collection gives the interface its reference semantics.

    Conventions of the embedding:
    - a field value is a JSON scalar ([null], boolean, number, string);
      numbers are integers, added exactly: a theorem that equates sums
      computed apart assumes [exact_amounts], under which the store's
      binary64 additions do not round;
    - a request body is a JSON object read through the six fields the routes
      name; a field that is absent is [None]; the body of a creation also
      has the [_id] field the client may have put in it;
    - an [ObjectId] is its 12 bytes; its text form is 24 hexadecimal digits;
      a stored document's [_id] is the [ObjectId] the driver generated for
      it, or the value the client sent as [_id];
    - a route yields either the response it sent or the exception that left
      the [async] callback with no response sent. *)

From Stdlib Require Import ZArith List String Ascii Bool Lia.
From Stdlib Require Import Sorted Permutation.
From Stdlib Require Strings.Byte.
Import ListNotations.
Open Scope string_scope.
Open Scope Z_scope.

(** ** Field values and documents *)

Inductive value : Type :=
| VNull
| VBool (b : bool)
| VNum (n : Z)
| VStr (s : string).

Definition value_eq_dec (x y : value) : {x = y} + {x <> y}.
Proof.
  decide equality;
    [apply Bool.bool_dec | apply Z.eq_dec | apply string_dec].
Defined.

(** The body of [POST /finance] and of [PATCH /finance/:id]. *)
Record finance : Type := mkFinance {
  title : option value;
  amount : option value;
  description : option value;
  date : option value;
  category : option value;
  type : option value
}.

Definition ObjectId : Type := list Byte.byte.

(** The [_id] of a stored document: the [ObjectId] the driver generated,
    or the value the client sent in the body of the creation. *)
Inductive doc_id : Type :=
| Generated (o : ObjectId)
| Supplied (v : value).

Record document : Type := mkDocument {
  _id : doc_id;
  doc : finance
}.

(** The body of [POST /finance]: its [_id] field, if it has one, and the
    six fields. *)
Record request_body : Type := mkBody {
  body_id : option value;
  fields : finance
}.

Definition option_eq_dec {A} (dec : forall x y : A, {x = y} + {x <> y})
  (x y : option A) : {x = y} + {x <> y}.
Proof. decide equality. Defined.

Definition finance_eq_dec (x y : finance) : {x = y} + {x <> y}.
Proof. decide equality; apply (option_eq_dec value_eq_dec). Defined.

Definition ObjectId_eq_dec (x y : ObjectId) : {x = y} + {x <> y} :=
  list_eq_dec Byte.byte_eq_dec x y.

Definition doc_id_eq_dec (x y : doc_id) : {x = y} + {x <> y}.
Proof. decide equality; [apply ObjectId_eq_dec | apply value_eq_dec]. Defined.

(** ** [new ObjectId(id)] and [toHexString] *)

Module Hex.

Definition digit (n : N) : ascii :=
  if (n <? 10)%N then ascii_of_N (48 + n) else ascii_of_N (87 + n).

Definition digit_value (c : ascii) : option N :=
  let n := N_of_ascii c in
  if ((48 <=? n) && (n <=? 57))%N then Some (n - 48)%N
  else if ((97 <=? n) && (n <=? 102))%N then Some (n - 87)%N
  else if ((65 <=? n) && (n <=? 70))%N then Some (n - 55)%N
  else None.

Definition of_byte (b : Byte.byte) : string :=
  let n := Byte.to_N b in
  String (digit (n / 16)) (String (digit (n mod 16)) EmptyString).

Fixpoint encode (bs : list Byte.byte) : string :=
  match bs with
  | [] => EmptyString
  | b :: bs' => of_byte b ++ encode bs'
  end.

Fixpoint decode (s : string) : option (list Byte.byte) :=
  match s with
  | EmptyString => Some []
  | String hi (String lo rest) =>
      match digit_value hi, digit_value lo with
      | Some h, Some l =>
          match Byte.of_N (16 * h + l), decode rest with
          | Some b, Some bs => Some (b :: bs)
          | _, _ => None
          end
      | _, _ => None
      end
  | String _ EmptyString => None
  end.

End Hex.

(** [new ObjectId(id)] for a string [id]: 24 hexadecimal digits give the 12
    bytes; anything else makes the constructor throw. *)
Definition new_ObjectId (id : string) : option ObjectId :=
  if Nat.eqb (String.length id) 24 then Hex.decode id else None.

Definition toHexString (o : ObjectId) : string := Hex.encode o.

(** A generated identifier has 12 bytes. *)
Definition is_ObjectId (o : ObjectId) : bool := Nat.eqb (List.length o) 12.

(** ** Results of the driver and bodies of the responses *)

Inductive error : Type :=
| BSONError          (* [new ObjectId] on a string that is no identifier *)
| TypeError          (* a property read on [undefined] *)
| DuplicateKey       (* E11000 on [insertOne] *)
| ConversionFailure  (* [$dateFromString] on a string it cannot parse *)
| StoreError (msg : string).   (* transport or server failure *)

Inductive outcome (A : Type) : Type :=
| Ok (a : A)
| Throw (e : error).
Arguments Ok {A} a.
Arguments Throw {A} e.

Record InsertOneResult : Type := { insertedId : doc_id }.
Record DeleteResult : Type := { deletedCount : Z }.
Record UpdateResult : Type := { matchedCount : Z; modifiedCount : Z }.

(** The argument of [$set] in the update route: a field is [None] where the
    JavaScript value is [undefined]. *)
Record set_fields : Type := mkSet {
  set_title : option value;
  set_amount : option value;
  set_description : option value;
  set_date : option value;
  set_category : option value;
  set_type : option value
}.

(** Rows of the aggregation results. *)
Record total_row : Type := mkTotal {
  totalExpense : Z;
  totalIncome : Z;
  totalTransactions : Z
}.

Record sums : Type := mkSums {
  sumExpense : Z;   (* field [totalExpense] of a category or month row *)
  sumIncome : Z     (* field [totalIncome] of a category or month row *)
}.

Record ranking : Type := mkRanking {
  categoryCount : Z;
  totalAmount : Z
}.

(** [_id] of a month row: [{year, month}], both [null] when the parsed date
    is [null]. *)
Definition month_id : Type := option (Z * Z).

Record facets : Type := mkFacets {
  totalStats : list (unit * total_row);
  categoryStats : list (value * sums);
  monthlyStats : list (month_id * sums)
}.

Record stats_response : Type := mkStats {
  r_totalExpense : Z;
  r_totalIncome : Z;
  r_totalTransactions : Z;
  r_categoryStats : list (value * sums);
  r_monthlyStats : list (month_id * sums)
}.

Inductive body : Type :=
| BNull
| BDocument (d : document)
| BDocuments (ds : list document)
| BInserted (r : InsertOneResult)
| BDeleted (r : DeleteResult)
| BUpdated (r : UpdateResult)
| BFinanceStats (r : stats_response)
| BCategoryStats (expenseStats incomeStats : list (value * ranking))
| BError (msg : string).

Record response : Type := mkResponse { status : Z; sent : body }.

(** What a route leaves behind: the response it sent, or the exception that
    escaped its callback before anything was sent. *)
Inductive reply : Type :=
| Sent (r : response)
| Uncaught (e : error).

(** ** The monad of a route: store state and exceptions *)

Definition M (St A : Type) : Type := St -> outcome A * St.

Definition ret {St A} (a : A) : M St A := fun s => (Ok a, s).

Definition throw {St A} (e : error) : M St A := fun s => (Throw e, s).

Definition bind {St A B} (m : M St A) (k : A -> M St B) : M St B :=
  fun s =>
    match m s with
    | (Ok a, s') => k a s'
    | (Throw e, s') => (Throw e, s')
    end.

(** [try { body } catch (error) { handler }] *)
Definition try_catch {St A} (body : M St A) (handler : error -> M St A)
  : M St A :=
  fun s =>
    match body s with
    | (Ok a, s') => (Ok a, s')
    | (Throw e, s') => handler e s'
    end.

Declare Scope route_scope.
Delimit Scope route_scope with route.
Notation "x <- m ;; k" := (bind m (fun x => k))
  (at level 100, m at next level, right associativity) : route_scope.
Open Scope route_scope.

(** [res.send(b)] and [res.status(n).send(b)] *)
Definition send {St} (b : body) : M St response := ret (mkResponse 200 b).

Definition status_send {St} (n : Z) (b : body) : M St response :=
  ret (mkResponse n b).

(** Reading a property of [l[0]]: a [TypeError] when the array is empty. *)
Definition first_of {St A} (l : list A) : M St A :=
  match l with
  | x :: _ => ret x
  | [] => throw TypeError
  end.

(** [new ObjectId(id)] inside a route. *)
Definition construct_ObjectId {St} (id : string) : M St ObjectId :=
  match new_ObjectId id with
  | Some o => ret o
  | None => throw BSONError
  end.

(** An [async] route callback run to its end. *)
Definition route {St} (m : M St response) (s : St) : reply * St :=
  match m s with
  | (Ok r, s') => (Sent r, s')
  | (Throw e, s') => (Uncaught e, s')
  end.

(** The operations of [financeCollection] the routes call.  [insertOne]
    takes, besides the document, the identifier the driver generates for
    it when the document has no [_id] of its own; a pipeline is passed as
    the function it computes on the documents of the collection. *)
Record Collection (St : Type) : Type := mkCollection {
  insertOne : ObjectId -> request_body -> M St InsertOneResult;
  find : M St (list document);
  findOne : ObjectId -> M St (option document);
  deleteOne : ObjectId -> M St DeleteResult;
  updateOne : ObjectId -> set_fields -> M St UpdateResult;
  aggregate : forall R : Type,
      (list document -> outcome (list R)) -> M St (list R)
}.
Arguments insertOne {St} _ _ _.
Arguments find {St} _.
Arguments findOne {St} _ _.
Arguments deleteOne {St} _ _.
Arguments updateOne {St} _ _ _.
Arguments aggregate {St} _ {R} _.

(** ** Aggregation stages *)

Section Group.
Context {D K A : Type}.
Variable K_eq_dec : forall x y : K, {x = y} + {x <> y}.
Variable key : D -> K.        (* the [_id] expression *)
Variable init : A.            (* accumulators of a new group *)
Variable step : D -> A -> A.  (* accumulators after one more document *)

Fixpoint upsert (k : K) (d : D) (gs : list (K * A)) : list (K * A) :=
  match gs with
  | [] => [(k, step d init)]
  | (k', a) :: gs' =>
      if K_eq_dec k k' then (k', step d a) :: gs'
      else (k', a) :: upsert k d gs'
  end.

(** [$group]: one row per distinct key, in order of first occurrence. *)
Definition group (ds : list D) : list (K * A) :=
  fold_left (fun gs d => upsert (key d) d gs) ds [].

(** Lookup of the row of key [k]. *)
Fixpoint assoc (k : K) (gs : list (K * A)) : option A :=
  match gs with
  | [] => None
  | (k', a) :: gs' => if K_eq_dec k k' then Some a else assoc k gs'
  end.

(** The documents of group [k]. *)
Definition members (k : K) (ds : list D) : list D :=
  filter (fun d => if K_eq_dec (key d) k then true else false) ds.

(** The accumulators after the documents [ds], starting from [a]. *)
Definition accumulate (ds : list D) (a : A) : A :=
  fold_left (fun a d => step d a) ds a.

Definition or_init (o : option A) : A :=
  match o with
  | Some a => a
  | None => init
  end.
End Group.

Section Sort.
Context {A : Type}.
Variable leb : A -> A -> bool.

Fixpoint insert_sorted (x : A) (l : list A) : list A :=
  match l with
  | [] => [x]
  | y :: l' => if leb x y then x :: l else y :: insert_sorted x l'
  end.

(** [$sort]: the rows reordered by [leb]. *)
Definition sort (l : list A) : list A := fold_right insert_sorted [] l.
End Sort.

(** A field path used as an expression: a missing field groups as [null]. *)
Definition field_or_null (v : option value) : value :=
  match v with
  | Some x => x
  | None => VNull
  end.

(** [{ $eq: ["$type", t] }] *)
Definition type_is (t : string) (d : document) : bool :=
  match type (doc d) with
  | Some (VStr s) => String.eqb s t
  | _ => false
  end.

(** What [$sum] adds for an operand: its number, nothing for the rest. *)
Definition sum_operand (v : option value) : Z :=
  match v with
  | Some (VNum n) => n
  | _ => 0
  end.

(** [{ $sum: { $cond: [{ $eq: ["$type", t] }, "$amount", 0] } }], one
    document's share. *)
Definition cond_amount (t : string) (d : document) : Z :=
  if type_is t d then sum_operand (amount (doc d)) else 0.

Definition unit_eq_dec (x y : unit) : {x = y} + {x <> y}.
Proof. decide equality. Defined.

Definition month_id_eq_dec (x y : month_id) : {x = y} + {x <> y}.
Proof. repeat decide equality. Defined.

Definition total_step (d : document) (a : total_row) : total_row :=
  mkTotal (totalExpense a + cond_amount "expense" d)
          (totalIncome a + cond_amount "income" d)
          (totalTransactions a + 1).

Definition sums_step (d : document) (a : sums) : sums :=
  mkSums (sumExpense a + cond_amount "expense" d)
         (sumIncome a + cond_amount "income" d).

Definition ranking_step (d : document) (a : ranking) : ranking :=
  mkRanking (categoryCount a + 1)
            (totalAmount a + sum_operand (amount (doc d))).

(** A parsed date, as [$year] and [$month] read it. *)
Record ISODate : Type := mkDate { year : Z; month : Z; day : Z }.

(** [{ year: { $year: "$parsedDate" }, month: { $month: "$parsedDate" } }] *)
Definition month_of (parsedDate : option ISODate) : month_id :=
  match parsedDate with
  | Some p => Some (year p, month p)
  | None => None
  end.

(** Order of [$sort: { "_id.year": 1, "_id.month": 1 }]; [null] sorts
    before every number. *)
Definition month_id_leb (x y : month_id) : bool :=
  match x, y with
  | None, _ => true
  | Some _, None => false
  | Some (y1, m1), Some (y2, m2) =>
      (y1 <? y2) || ((y1 =? y2) && (m1 <=? m2))
  end.

(** Order of [$sort: { totalAmount: -1 }]. *)
Definition ranking_leb (x y : value * ranking) : bool :=
  totalAmount (snd y) <=? totalAmount (snd x).

(** [{ $match: { type: t } }] *)
Definition match_type (t : string) (ds : list document) : list document :=
  filter (type_is t) ds.

(** The pipeline of each list of [/category-stats]. *)
Definition category_pipeline (t : string) (ds : list document)
  : outcome (list (value * ranking)) :=
  Ok (sort ranking_leb
        (group value_eq_dec (fun d => field_or_null (category (doc d)))
               (mkRanking 0 0) ranking_step
               (match_type t ds))).

Section Pipelines.
(** The store's parser for [format: "%Y-%m-%d"]: the date a string
    denotes, or nothing when the string does not parse. *)
Variable parse_date : string -> option ISODate.

(** [$dateFromString] without [onError] and [onNull]. *)
Definition dateFromString (dateString : option value)
  : outcome (option ISODate) :=
  match dateString with
  | None | Some VNull => Ok None
  | Some (VStr s) =>
      match parse_date s with
      | Some p => Ok (Some p)
      | None => Throw ConversionFailure
      end
  | Some _ => Throw ConversionFailure
  end.

(** [$addFields: { parsedDate: ... }] *)
Fixpoint addFields_parsedDate (ds : list document)
  : outcome (list (document * option ISODate)) :=
  match ds with
  | [] => Ok []
  | d :: ds' =>
      match dateFromString (date (doc d)) with
      | Throw e => Throw e
      | Ok p =>
          match addFields_parsedDate ds' with
          | Throw e => Throw e
          | Ok rest => Ok ((d, p) :: rest)
          end
      end
  end.

Definition totalStats_facet (ds : list document)
  : list (unit * total_row) :=
  group unit_eq_dec (fun _ => tt) (mkTotal 0 0 0) total_step ds.

Definition categoryStats_facet (ds : list document)
  : list (value * sums) :=
  group value_eq_dec (fun d => field_or_null (category (doc d)))
        (mkSums 0 0) sums_step ds.

Definition monthlyStats_facet (ds : list document)
  : outcome (list (month_id * sums)) :=
  match addFields_parsedDate ds with
  | Throw e => Throw e
  | Ok ps =>
      Ok (sort (fun x y => month_id_leb (fst x) (fst y))
            (group month_id_eq_dec (fun dp => month_of (snd dp))
                   (mkSums 0 0) (fun dp => sums_step (fst dp)) ps))
  end.

(** The [$facet] pipeline of [/finance-stats]: one result document. *)
Definition finance_pipeline (ds : list document) : outcome (list facets) :=
  match monthlyStats_facet ds with
  | Throw e => Throw e
  | Ok monthly =>
      Ok [mkFacets (totalStats_facet ds) (categoryStats_facet ds) monthly]
  end.
End Pipelines.

(** ** The routes *)

Section Routes.
Context {St : Type}.
Variable financeCollection : Collection St.
Variable parse_date : string -> option ISODate.

(** [app.post("/finance")]; [finance] is [req.body] as it came, and
    [generated] is the identifier the driver has at hand for a document
    without [_id]. *)
Definition post_finance (generated : ObjectId) (finance : request_body)
  : M St response :=
  result <- insertOne financeCollection generated finance ;;
  send (BInserted result).

(** [app.get("/finance")] *)
Definition get_finance : M St response :=
  result <- find financeCollection ;;
  send (BDocuments result).

(** [app.get("/finance/:id")] *)
Definition get_finance_id (id : string) : M St response :=
  query <- construct_ObjectId id ;;
  result <- findOne financeCollection query ;;
  send (match result with
        | Some d => BDocument d
        | None => BNull
        end).

(** [app.delete("/finance/:id")] *)
Definition delete_finance_id (id : string) : M St response :=
  query <- construct_ObjectId id ;;
  result <- deleteOne financeCollection query ;;
  send (BDeleted result).

(** [app.patch("/finance/:id")] *)
Definition patch_finance_id (financeId : string) (data : finance)
  : M St response :=
  filter <- construct_ObjectId financeId ;;
  let updatedDoc :=
    mkSet (title data) (amount data) (description data)
          (date data) (category data) (type data) in
  result <- updateOne financeCollection filter updatedDoc ;;
  send (BUpdated result).

(** [app.get("/finance-stats")] *)
Definition get_finance_stats : M St response :=
  try_catch
    (financeStats <- aggregate financeCollection
                       (finance_pipeline parse_date) ;;
     first <- first_of financeStats ;;
     total <- first_of (totalStats first) ;;
     send (BFinanceStats
             (mkStats (totalExpense (snd total))
                      (totalIncome (snd total))
                      (totalTransactions (snd total))
                      (categoryStats first)
                      (monthlyStats first))))
    (fun _ => status_send 500 (BError "Error fetching finance stats")).

(** [app.get("/category-stats")] *)
Definition get_category_stats : M St response :=
  try_catch
    (expenseStats <- aggregate financeCollection
                       (category_pipeline "expense") ;;
     incomeStats <- aggregate financeCollection
                      (category_pipeline "income") ;;
     send (BCategoryStats expenseStats incomeStats))
    (fun _ => status_send 500 (BError "Error fetching category stats")).
End Routes.

(** ** The collection held in memory *)

Module Mem.

Definition store : Type := list document.

(** The filter [{ _id: o }] for an [ObjectId]: a document whose [_id] is
    a value of another kind is never matched. *)
Definition has_id (o : ObjectId) (d : document) : bool :=
  match _id d with
  | Generated o' => if ObjectId_eq_dec o' o then true else false
  | Supplied _ => false
  end.

Definition has_doc_id (i : doc_id) (d : document) : bool :=
  if doc_id_eq_dec (_id d) i then true else false.

(** The [_id] a new document gets: the driver sets the generated one when
    the document's own is missing or [null], and keeps the own one
    otherwise. *)
Definition assigned_id (g : ObjectId) (b : request_body) : doc_id :=
  match body_id b with
  | None | Some VNull => Generated g
  | Some v => Supplied v
  end.

Fixpoint remove_first (o : ObjectId) (s : store) : store :=
  match s with
  | [] => []
  | d :: s' => if has_id o d then s' else d :: remove_first o s'
  end.

Fixpoint replace_first (o : ObjectId) (d' : document) (s : store) : store :=
  match s with
  | [] => []
  | d :: s' => if has_id o d then d' :: s' else d :: replace_first o d' s'
  end.

(** The driver writes [undefined] as [null] ([ignoreUndefined] is off). *)
Definition serialize (v : option value) : option value :=
  match v with
  | Some x => Some x
  | None => Some VNull
  end.

(** [$set] of the six fields on one document. *)
Definition apply_set (u : set_fields) (d : document) : document :=
  mkDocument (_id d)
    (mkFinance (serialize (set_title u)) (serialize (set_amount u))
               (serialize (set_description u)) (serialize (set_date u))
               (serialize (set_category u)) (serialize (set_type u))).

Definition mem_insertOne (g : ObjectId) (b : request_body)
  : M store InsertOneResult :=
  fun s =>
    let i := assigned_id g b in
    if existsb (has_doc_id i) s then (Throw DuplicateKey, s)
    else (Ok {| insertedId := i |}, (s ++ [mkDocument i (fields b)])%list).

Definition mem_find : M store (list document) := fun s => (Ok s, s).

Definition mem_findOne (o : ObjectId) : M store (option document) :=
  fun s => (Ok (List.find (has_id o) s), s).

Definition mem_deleteOne (o : ObjectId) : M store DeleteResult :=
  fun s =>
    match List.find (has_id o) s with
    | Some _ => (Ok {| deletedCount := 1 |}, remove_first o s)
    | None => (Ok {| deletedCount := 0 |}, s)
    end.

Definition mem_updateOne (o : ObjectId) (u : set_fields)
  : M store UpdateResult :=
  fun s =>
    match List.find (has_id o) s with
    | Some d =>
        let d' := apply_set u d in
        (Ok {| matchedCount := 1;
               modifiedCount := if finance_eq_dec (doc d) (doc d')
                                then 0 else 1 |},
         replace_first o d' s)
    | None => (Ok {| matchedCount := 0; modifiedCount := 0 |}, s)
    end.

Definition mem_aggregate (R : Type)
  (pipeline : list document -> outcome (list R)) : M store (list R) :=
  fun s => (pipeline s, s).

Definition collection : Collection store :=
  mkCollection store mem_insertOne mem_find mem_findOne mem_deleteOne
               mem_updateOne mem_aggregate.

End Mem.

(** Modelled from the spec: the store's parser behind [$dateFromString]
    with [format: "%Y-%m-%d"], which is not part of the repository.  The
    strict form [YYYY-MM-DD]: four digits, two digits from 01 to 12, two
    digits from 01 to 31, separated by [-].  The pipelines and the routes
    take the parser as a parameter; this one runs them. *)
Module Strict.

Definition digit (c : ascii) : option Z :=
  let n := Z.of_N (N_of_ascii c) in
  if (48 <=? n) && (n <=? 57) then Some (n - 48) else None.

Fixpoint number (cs : list ascii) (acc : Z) : option Z :=
  match cs with
  | [] => Some acc
  | c :: cs' =>
      match digit c with
      | Some v => number cs' (10 * acc + v)
      | None => None
      end
  end.

Definition parse_date (s : string) : option ISODate :=
  match list_ascii_of_string s with
  | [y1; y2; y3; y4; d1; m1; m2; d2; a1; a2] =>
      if Ascii.eqb d1 "-" && Ascii.eqb d2 "-" then
        match number [y1; y2; y3; y4] 0, number [m1; m2] 0,
              number [a1; a2] 0 with
        | Some y, Some m, Some a =>
            if (1 <=? m) && (m <=? 12) && (1 <=? a) && (a <=? 31)
            then Some (mkDate y m a) else None
        | _, _, _ => None
        end
      else None
  | _ => None
  end.

End Strict.

(** ** Sums written as the specification words them *)

Definition Zsum (l : list Z) : Z := fold_right Z.add 0 l.

(** The sum of [amount] over a list of records. *)
Definition amount_sum (ds : list document) : Z :=
  Zsum (map (fun d => sum_operand (amount (doc d))) ds).

(** The record's category is [c] (a missing category is the [null] one). *)
Definition category_is (c : value) (d : document) : bool :=
  if value_eq_dec (field_or_null (category (doc d))) c then true else false.

(** The date a record's [date] string denotes. *)
Definition parsed (parse_date : string -> option ISODate) (d : document)
  : option ISODate :=
  match date (doc d) with
  | Some (VStr s) => parse_date s
  | _ => None
  end.

(** The record's parsed date falls in year [y], month [m]. *)
Definition falls_in (parse_date : string -> option ISODate) (y m : Z)
  (d : document) : bool :=
  match parsed parse_date d with
  | Some p => (year p =? y) && (month p =? m)
  | None => false
  end.

(** The record belongs to the month row [k]. *)
Definition in_month (parse_date : string -> option ISODate) (k : month_id)
  (d : document) : bool :=
  if month_id_eq_dec (month_of (parsed parse_date d)) k then true else false.

(** The record's [date] is a string that parses. *)
Definition date_parses (parse_date : string -> option ISODate)
  (d : document) : Prop :=
  exists s p, date (doc d) = Some (VStr s) /\ parse_date s = Some p.

(** Strictly ascending order on [(year, month)]. *)
Definition month_before (x y : month_id) : Prop :=
  match x, y with
  | Some (y1, m1), Some (y2, m2) => y1 < y2 \/ (y1 = y2 /\ m1 < m2)
  | None, Some _ => True
  | _, None => False
  end.

(** Descending order of [totalAmount]; equal amounts in any order. *)
Definition amount_ge (x y : value * ranking) : Prop :=
  totalAmount (snd x) >= totalAmount (snd y).

(** What a list of [/category-stats] must be for the records of type [t]:
    descending amounts, one row per category of those records, each row
    with their number and the sum of their amounts. *)
Definition ranked (t : string) (ds : list document)
  (rows : list (value * ranking)) : Prop :=
  StronglySorted amount_ge rows
  /\ NoDup (map fst rows)
  /\ (forall c r, In (c, r) rows ->
        categoryCount r =
          Z.of_nat (List.length
                      (filter (fun d => type_is t d && category_is c d) ds))
        /\ totalAmount r =
          amount_sum (filter (fun d => type_is t d && category_is c d) ds)
        /\ 0 < categoryCount r)
  /\ (forall d, In d ds -> type_is t d = true ->
        In (field_or_null (category (doc d))) (map fst rows)).

(** A record paired with its parsed date, as [$addFields] leaves it. *)
Definition with_parsed (parse_date : string -> option ISODate)
  (d : document) : document * option ISODate :=
  (d, parsed parse_date d).

(** The response of [/finance-stats] written with the sums over the
    records. *)
Definition stats_of (ds : list document) (ms : list (month_id * sums))
  : stats_response :=
  mkStats (amount_sum (filter (type_is "expense") ds))
          (amount_sum (filter (type_is "income") ds))
          (Z.of_nat (List.length ds))
          (categoryStats_facet ds) ms.

(** The value a field has after the update: the patch's value, [null]
    where the patch has none. *)
Definition replaced (v : option value) : option value :=
  match v with
  | Some x => Some x
  | None => Some VNull
  end.

(** The body of a creation has an [_id] of its own: the field is there
    and is not [null]. *)
Definition has_own_id (b : request_body) : bool :=
  match body_id b with
  | None | Some VNull => false
  | Some _ => true
  end.

(** A reply that is a client error: a response with a 4xx status. *)
Definition client_error (r : reply) : Prop :=
  exists st b, r = Sent (mkResponse st b) /\ 400 <= st < 500.

(** A collection whose server cannot be reached: every call throws. *)
Module Down.

Definition unavailable : error := StoreError "server selection timed out".

Definition collection : Collection unit :=
  mkCollection unit
    (fun _ _ => throw unavailable)
    (throw unavailable)
    (fun _ => throw unavailable)
    (fun _ => throw unavailable)
    (fun _ _ => throw unavailable)
    (fun _ _ => throw unavailable).

End Down.

(** Records and identifiers used to run the routes. *)
Module Sample.

Definition id_lunch : ObjectId :=
  [Byte.x65; Byte.xa1; Byte.x00; Byte.x00; Byte.x00; Byte.x00;
   Byte.x00; Byte.x00; Byte.x00; Byte.x00; Byte.x00; Byte.x01].

Definition id_salary : ObjectId :=
  [Byte.x65; Byte.xa1; Byte.x00; Byte.x00; Byte.x00; Byte.x00;
   Byte.x00; Byte.x00; Byte.x00; Byte.x00; Byte.x00; Byte.x02].

Definition id_transfer : ObjectId :=
  [Byte.x65; Byte.xa1; Byte.x00; Byte.x00; Byte.x00; Byte.x00;
   Byte.x00; Byte.x00; Byte.x00; Byte.x00; Byte.x00; Byte.x03].

Definition id_other : ObjectId :=
  [Byte.x65; Byte.xa1; Byte.x00; Byte.x00; Byte.x00; Byte.x00;
   Byte.x00; Byte.x00; Byte.x00; Byte.x00; Byte.x00; Byte.xff].

Definition lunch : finance :=
  mkFinance (Some (VStr "Lunch")) (Some (VNum 100)) (Some (VStr "canteen"))
            (Some (VStr "2024-01-15")) (Some (VStr "food"))
            (Some (VStr "expense")).

Definition salary : finance :=
  mkFinance (Some (VStr "Pay")) (Some (VNum 50)) None
            (Some (VStr "2024-01-20")) (Some (VStr "salary"))
            (Some (VStr "income")).

Definition transfer : finance :=
  mkFinance (Some (VStr "To savings")) (Some (VNum 7)) None
            (Some (VStr "2023-12-20")) (Some (VStr "food"))
            (Some (VStr "transfer")).

Definition slashed : finance :=
  mkFinance (Some (VStr "Taxi")) (Some (VNum 12)) None
            (Some (VStr "15/01/2024")) (Some (VStr "travel"))
            (Some (VStr "expense")).

Definition lunch_doc : document := mkDocument (Generated id_lunch) lunch.
Definition salary_doc : document :=
  mkDocument (Generated id_salary) salary.
Definition transfer_doc : document :=
  mkDocument (Generated id_transfer) transfer.
Definition slashed_doc : document :=
  mkDocument (Generated id_other) slashed.

Definition records : Mem.store := [lunch_doc; transfer_doc; salary_doc].

(** A second expense of 100, in another category than the lunch. *)
Definition snack_doc : document :=
  mkDocument (Generated id_other)
    (mkFinance (Some (VStr "Snack")) (Some (VNum 100)) None
               (Some (VStr "2024-02-01")) (Some (VStr "snack"))
               (Some (VStr "expense"))).

(** A record sent without a date. *)
Definition undated_doc : document :=
  mkDocument (Generated id_other)
    (mkFinance (Some (VStr "Cash")) (Some (VNum 5)) None None
               (Some (VStr "food")) (Some (VStr "expense"))).

(** A record whose amount was sent as text. *)
Definition quoted_doc : document :=
  mkDocument (Generated id_other)
    (mkFinance (Some (VStr "Book")) (Some (VStr "100")) None
               (Some (VStr "2024-01-03")) (Some (VStr "food"))
               (Some (VStr "expense"))).

(** An expense of 12 sent without a date. *)
Definition coffee : finance :=
  mkFinance (Some (VStr "Coffee")) (Some (VNum 12)) None None
            (Some (VStr "food")) (Some (VStr "expense")).

(** A patch that names the title alone. *)
Definition retitle : finance :=
  mkFinance (Some (VStr "Dinner")) None None None None None.

End Sample.

(** [$dateFromString] takes the record's [date]: it is absent, [null], or a
    string that parses. *)
Definition date_accepted (parse_date : string -> option ISODate)
  (d : document) : bool :=
  match date (doc d) with
  | None | Some VNull => true
  | Some (VStr s) =>
      match parse_date s with
      | Some _ => true
      | None => false
      end
  | Some _ => false
  end.

(** The record has no date: the field is absent or [null]. *)
Definition no_date (d : document) : bool :=
  match date (doc d) with
  | None | Some VNull => true
  | _ => false
  end.

(** The record's [amount] is a number. *)
Definition amount_is_number (d : document) : bool :=
  match amount (doc d) with
  | Some (VNum _) => true
  | _ => false
  end.

(** The amounts are integers whose magnitudes add up to at most 2^53.  The
    store adds amounts in binary64; under this bound every sum of some of
    the amounts, taken in any order, is an integer it represents exactly,
    so that the sums of the store are the sums of integers. *)
Definition exact_amounts (ds : list document) : Prop :=
  Zsum (map (fun d => Z.abs (sum_operand (amount (doc d)))) ds) <= 2 ^ 53.

(** A column of a list of rows, summed. *)
Definition column_sum {K A} (col : A -> Z) (rows : list (K * A)) : Z :=
  Zsum (map (fun row => col (snd row)) rows).

(** The identifiers of the stored records, in their order. *)
Definition ids (s : list document) : list doc_id := map _id s.

(** ** Facts on [$group] *)

Section GroupFacts.
Context {D K A : Type}.
Variable K_eq_dec : forall x y : K, {x = y} + {x <> y}.
Variable key : D -> K.
Variable init : A.
Variable step : D -> A -> A.

Let ups := upsert K_eq_dec init step.
Let look := @assoc K A K_eq_dec.

Lemma assoc_upsert k k' d gs :
  look k (ups k' d gs) =
  if K_eq_dec k k' then Some (step d (or_init init (look k' gs)))
  else look k gs.
Proof.
  subst ups look. induction gs as [|[k0 a] gs IH]; simpl.
  - destruct (K_eq_dec k' k'); [|congruence].
    destruct (K_eq_dec k k'); reflexivity.
  - destruct (K_eq_dec k' k0) as [e|n]; simpl.
    + subst k0. destruct (K_eq_dec k k'); reflexivity.
    + destruct (K_eq_dec k k0) as [e0|n0].
      * subst k0. destruct (K_eq_dec k k'); [congruence|reflexivity].
      * exact IH.
Qed.

Lemma keys_upsert k d gs :
  map fst (ups k d gs) =
  if in_dec K_eq_dec k (map fst gs) then map fst gs
  else (map fst gs ++ [k])%list.
Proof.
  subst ups. induction gs as [|[k0 a] gs IH]; simpl.
  - reflexivity.
  - destruct (K_eq_dec k k0) as [e|n]; simpl.
    + subst k0. destruct (K_eq_dec k k); [reflexivity|congruence].
    + destruct (K_eq_dec k0 k); [congruence|].
      rewrite IH. destruct (in_dec K_eq_dec k (map fst gs)); reflexivity.
Qed.

Lemma NoDup_upsert k d gs :
  NoDup (map fst gs) -> NoDup (map fst (ups k d gs)).
Proof.
  intros H. rewrite keys_upsert.
  destruct (in_dec K_eq_dec k (map fst gs)) as [i|n]; [exact H|].
  apply NoDup_app; repeat split; auto.
  - constructor; [simpl; tauto | constructor].
  - intros x Hx [e|[]]. subst x. contradiction.
Qed.

Lemma assoc_fold k ds : forall gs,
  look k (fold_left (fun gs d => ups (key d) d gs) ds gs) =
  match members K_eq_dec key k ds with
  | [] => look k gs
  | _ :: _ =>
      Some (accumulate step (members K_eq_dec key k ds)
                       (or_init init (look k gs)))
  end.
Proof.
  induction ds as [|d ds IH]; intros gs; simpl; [reflexivity|].
  rewrite IH, assoc_upsert. unfold members in *; simpl.
  destruct (K_eq_dec (key d) k) as [e|n].
  - destruct (K_eq_dec k (key d)); [|congruence]. subst k.
    destruct (filter _ ds); reflexivity.
  - destruct (K_eq_dec k (key d)); [congruence|]. reflexivity.
Qed.

Lemma assoc_group k ds :
  look k (group K_eq_dec key init step ds) =
  match members K_eq_dec key k ds with
  | [] => None
  | _ :: _ => Some (accumulate step (members K_eq_dec key k ds) init)
  end.
Proof. unfold group. apply (assoc_fold k ds []). Qed.

Lemma NoDup_group ds :
  NoDup (map fst (group K_eq_dec key init step ds)).
Proof.
  unfold group.
  assert (G : forall gs, NoDup (map fst gs) ->
            NoDup (map fst (fold_left (fun gs d => ups (key d) d gs) ds gs))).
  { induction ds as [|d ds IH]; intros gs H; simpl; [exact H|].
    apply IH, NoDup_upsert, H. }
  apply G. constructor.
Qed.

Lemma In_assoc k a (gs : list (K * A)) :
  NoDup (map fst gs) -> In (k, a) gs -> look k gs = Some a.
Proof.
  subst look. induction gs as [|[k0 a0] gs IH]; simpl; intros N H; [easy|].
  inversion N as [|? ? Hn N']; subst.
  destruct H as [e|H].
  - inversion e; subst. destruct (K_eq_dec k k); [reflexivity|congruence].
  - destruct (K_eq_dec k k0) as [e|n]; [|auto].
    subst k0. exfalso. apply Hn. apply (in_map fst) in H. exact H.
Qed.

Lemma assoc_In k a (gs : list (K * A)) :
  look k gs = Some a -> In (k, a) gs.
Proof.
  subst look. induction gs as [|[k0 a0] gs IH]; simpl; intros H; [easy|].
  destruct (K_eq_dec k k0) as [e|n].
  - inversion H; subst. now left.
  - right. auto.
Qed.

(** A row of the result is the accumulation of its group's documents. *)
Lemma group_row k a ds :
  In (k, a) (group K_eq_dec key init step ds) ->
  members K_eq_dec key k ds <> []
  /\ a = accumulate step (members K_eq_dec key k ds) init.
Proof.
  intros H. apply In_assoc in H; [|apply NoDup_group].
  rewrite assoc_group in H.
  destruct (members K_eq_dec key k ds); [discriminate|].
  inversion H. split; [discriminate|reflexivity].
Qed.

(** Every document's key has a row. *)
Lemma group_key d ds :
  In d ds -> In (key d) (map fst (group K_eq_dec key init step ds)).
Proof.
  intros H.
  assert (M : In d (members K_eq_dec key (key d) ds)).
  { unfold members. apply filter_In. split; [exact H|].
    destruct (K_eq_dec (key d) (key d)); [reflexivity|congruence]. }
  pose proof (assoc_group (key d) ds) as E.
  destruct (members K_eq_dec key (key d) ds) as [|x xs]; [destruct M|].
  apply assoc_In in E. apply (in_map fst) in E. exact E.
Qed.
End GroupFacts.

(** ** Facts on [$sort] *)

Section SortFacts.
Context {A : Type}.
Variable leb : A -> A -> bool.
Hypothesis leb_total : forall x y, leb x y = false -> leb y x = true.
Hypothesis leb_trans :
  forall x y z, leb x y = true -> leb y z = true -> leb x z = true.

Let le (x y : A) : Prop := leb x y = true.

Lemma insert_sorted_perm x l : Permutation (insert_sorted leb x l) (x :: l).
Proof.
  induction l as [|y l IH]; simpl; [reflexivity|].
  destruct (leb x y); [reflexivity|].
  rewrite IH. apply perm_swap.
Qed.

Lemma sort_perm l : Permutation (sort leb l) l.
Proof.
  induction l as [|x l IH]; simpl; [constructor|].
  rewrite insert_sorted_perm. now constructor.
Qed.

Lemma insert_sorted_Sorted x l :
  Sorted le l -> Sorted le (insert_sorted leb x l).
Proof.
  induction 1 as [|y l S IH H]; simpl.
  - repeat constructor.
  - destruct (leb x y) eqn:E.
    + constructor; [now constructor|]. now constructor.
    + constructor; [exact IH|].
      apply leb_total in E.
      destruct H as [|z l H]; simpl.
      * now constructor.
      * destruct (leb x z); now constructor.
Qed.

Lemma sort_Sorted l : StronglySorted le (sort leb l).
Proof.
  apply Sorted_StronglySorted.
  - intros x y z. apply leb_trans.
  - induction l as [|x l IH]; simpl; [constructor|].
    now apply insert_sorted_Sorted.
Qed.
End SortFacts.

Lemma StronglySorted_impl {A} (R Q : A -> A -> Prop) (l : list A) :
  (forall x y, In x l -> In y l -> x <> y -> R x y -> Q x y) ->
  NoDup l -> StronglySorted R l -> StronglySorted Q l.
Proof.
  induction l as [|a l IH]; intros H N S; [constructor|].
  inversion N as [|? ? Hn N']; subst.
  apply StronglySorted_inv in S. destruct S as [S F].
  constructor.
  - apply IH; auto. intros x y Hx Hy. apply H; now right.
  - rewrite Forall_forall in *. intros y Hy.
    apply H; [now left | now right | congruence | auto].
Qed.

Lemma StronglySorted_map {A B} (f : A -> B) (R : B -> B -> Prop) l :
  StronglySorted (fun x y => R (f x) (f y)) l -> StronglySorted R (map f l).
Proof.
  induction 1 as [|a l S IH F]; simpl; constructor; auto.
  rewrite Forall_forall in *. intros y Hy.
  apply in_map_iff in Hy. destruct Hy as [x [e Hx]]. subst y. auto.
Qed.

(** ** The accumulators in closed form *)

Lemma Zsum_cond_amount t ds :
  Zsum (map (cond_amount t) ds) = amount_sum (filter (type_is t) ds).
Proof.
  unfold amount_sum, cond_amount.
  induction ds as [|d ds IH]; simpl; [reflexivity|].
  destruct (type_is t d); simpl; lia.
Qed.

Lemma filter_filter {A} (p q : A -> bool) l :
  filter p (filter q l) = filter (fun x => p x && q x) l.
Proof.
  induction l as [|x l IH]; simpl; [reflexivity|].
  destruct (q x); simpl; rewrite ?andb_true_r, ?andb_false_r;
    [destruct (p x)|]; now rewrite IH.
Qed.

Lemma accumulate_sums ds : forall a,
  accumulate sums_step ds a =
  mkSums (sumExpense a + Zsum (map (cond_amount "expense") ds))
         (sumIncome a + Zsum (map (cond_amount "income") ds)).
Proof.
  unfold accumulate.
  induction ds as [|d ds IH]; intros [e i]; simpl.
  - f_equal; lia.
  - rewrite IH. unfold sums_step; simpl. f_equal; lia.
Qed.

Lemma accumulate_total ds : forall a,
  accumulate total_step ds a =
  mkTotal (totalExpense a + Zsum (map (cond_amount "expense") ds))
          (totalIncome a + Zsum (map (cond_amount "income") ds))
          (totalTransactions a + Z.of_nat (List.length ds)).
Proof.
  unfold accumulate.
  induction ds as [|d ds IH]; intros [e i n].
  - simpl. f_equal; lia.
  - cbn [fold_left]. rewrite IH. unfold total_step.
    unfold Zsum.
    cbn [totalExpense totalIncome totalTransactions map fold_right
         List.length].
    f_equal; lia.
Qed.

Lemma accumulate_ranking ds : forall a,
  accumulate ranking_step ds a =
  mkRanking (categoryCount a + Z.of_nat (List.length ds))
            (totalAmount a + amount_sum ds).
Proof.
  unfold accumulate, amount_sum.
  induction ds as [|d ds IH]; intros [c t].
  - simpl. f_equal; lia.
  - cbn [fold_left]. rewrite IH. unfold ranking_step.
    unfold Zsum.
    cbn [categoryCount totalAmount map fold_right List.length].
    f_equal; lia.
Qed.

Lemma accumulate_fst {D P A} (step : D -> A -> A) (f : D -> D * P) ds :
  (forall d, fst (f d) = d) ->
  forall a, accumulate (fun dp => step (fst dp)) (map f ds) a
            = accumulate step ds a.
Proof.
  intros H. unfold accumulate.
  induction ds as [|d ds IH]; intros a; simpl; [reflexivity|].
  now rewrite H, IH.
Qed.

(** ** [$addFields] and the parsing of dates *)

Section DateFacts.
Variable parse_date : string -> option ISODate.

Lemma dateFromString_Ok d p :
  dateFromString parse_date (date (doc d)) = Ok p ->
  p = parsed parse_date d.
Proof.
  unfold dateFromString, parsed.
  destruct (date (doc d)) as [[| | |s]|]; try congruence.
  destruct (parse_date s); congruence.
Qed.

Lemma dateFromString_parses d :
  date_parses parse_date d ->
  dateFromString parse_date (date (doc d)) = Ok (parsed parse_date d).
Proof.
  intros [s [p [E1 E2]]]. unfold dateFromString, parsed.
  now rewrite E1, E2.
Qed.

Lemma addFields_Ok ds : forall ps,
  addFields_parsedDate parse_date ds = Ok ps ->
  ps = map (with_parsed parse_date) ds.
Proof.
  induction ds as [|d ds IH]; simpl; intros ps H.
  - now inversion H.
  - destruct (dateFromString parse_date (date (doc d))) eqn:E;
      [|discriminate].
    destruct (addFields_parsedDate parse_date ds); [|discriminate].
    inversion H; subst. simpl. f_equal; [|now apply IH].
    unfold with_parsed. f_equal. now apply dateFromString_Ok.
Qed.

Lemma addFields_parses ds :
  (forall d, In d ds -> date_parses parse_date d) ->
  addFields_parsedDate parse_date ds = Ok (map (with_parsed parse_date) ds).
Proof.
  induction ds as [|d ds IH]; simpl; intros H; [reflexivity|].
  rewrite dateFromString_parses by auto.
  rewrite IH by auto. reflexivity.
Qed.

(** One date that [$dateFromString] rejects fails the whole stage. *)
Lemma addFields_Throw ds d e :
  In d ds -> dateFromString parse_date (date (doc d)) = Throw e ->
  exists e', addFields_parsedDate parse_date ds = Throw e'.
Proof.
  induction ds as [|x ds IH]; simpl; intros H E; [easy|].
  destruct H as [->|H].
  - rewrite E. eauto.
  - destruct (dateFromString parse_date (date (doc x))); [|eauto].
    destruct (IH H E) as [e' ->]. eauto.
Qed.

Lemma members_with_parsed k ds :
  members month_id_eq_dec (fun dp : document * option ISODate =>
                             month_of (snd dp)) k
          (map (with_parsed parse_date) ds)
  = map (with_parsed parse_date) (filter (in_month parse_date k) ds).
Proof. unfold members. now rewrite filter_map_swap. Qed.
End DateFacts.

(** ** The order of the month rows *)

Lemma month_id_leb_total x y :
  month_id_leb x y = false -> month_id_leb y x = true.
Proof.
  destruct x as [[y1 m1]|], y as [[y2 m2]|]; simpl; try easy.
  intros H. apply orb_false_iff in H. destruct H as [H1 H2].
  apply Z.ltb_ge in H1.
  destruct (Z.ltb_spec y2 y1); [reflexivity|]. simpl.
  assert (y1 = y2) by lia. subst.
  rewrite Z.eqb_refl in *. simpl in *. apply Z.leb_gt in H2.
  apply Z.leb_le. lia.
Qed.

Lemma month_id_leb_trans x y z :
  month_id_leb x y = true -> month_id_leb y z = true ->
  month_id_leb x z = true.
Proof.
  destruct x as [[y1 m1]|], y as [[y2 m2]|], z as [[y3 m3]|]; simpl;
    try easy.
  rewrite !orb_true_iff, !andb_true_iff, !Z.ltb_lt, !Z.eqb_eq, !Z.leb_le.
  lia.
Qed.

Lemma month_id_leb_before x y :
  month_id_leb x y = true -> x <> y -> month_before x y.
Proof.
  destruct x as [[y1 m1]|], y as [[y2 m2]|]; simpl; try easy.
  rewrite !orb_true_iff, !andb_true_iff, !Z.ltb_lt, !Z.eqb_eq, !Z.leb_le.
  intros H N.
  destruct H as [H|[H1 H2]]; [now left|]. right. split; [exact H1|].
  assert (m1 <> m2) by (intros ->; subst; now apply N). lia.
Qed.

Lemma ranking_leb_total x y :
  ranking_leb x y = false -> ranking_leb y x = true.
Proof. unfold ranking_leb. rewrite Z.leb_gt, Z.leb_le. lia. Qed.

Lemma ranking_leb_trans x y z :
  ranking_leb x y = true -> ranking_leb y z = true -> ranking_leb x z = true.
Proof. unfold ranking_leb. rewrite !Z.leb_le. lia. Qed.

(** ** The facets in closed form *)

Lemma totalStats_fold ds : forall a,
  fold_left (fun gs d => upsert unit_eq_dec (mkTotal 0 0 0) total_step tt d gs)
            ds [(tt, a)]
  = [(tt, accumulate total_step ds a)].
Proof.
  induction ds as [|d ds IH]; intros a; simpl; [reflexivity|].
  destruct (unit_eq_dec tt tt); [|congruence]. apply IH.
Qed.

Lemma totalStats_rows ds :
  totalStats_facet ds =
  match ds with
  | [] => []
  | _ :: _ =>
      [(tt, mkTotal (amount_sum (filter (type_is "expense") ds))
                    (amount_sum (filter (type_is "income") ds))
                    (Z.of_nat (List.length ds)))]
  end.
Proof.
  destruct ds as [|d ds]; [reflexivity|].
  unfold totalStats_facet, group. cbn [fold_left upsert].
  rewrite totalStats_fold.
  change (accumulate total_step ds (total_step d (mkTotal 0 0 0)))
    with (accumulate total_step (d :: ds) (mkTotal 0 0 0)).
  now rewrite accumulate_total, !Zsum_cond_amount.
Qed.

Lemma categoryStats_rows c row ds :
  In (c, row) (categoryStats_facet ds) ->
  sumExpense row =
    amount_sum (filter (fun d => type_is "expense" d && category_is c d) ds)
  /\ sumIncome row =
    amount_sum (filter (fun d => type_is "income" d && category_is c d) ds).
Proof.
  intros H. apply group_row in H. destruct H as [_ ->].
  rewrite accumulate_sums, !Zsum_cond_amount. unfold members.
  rewrite !filter_filter. simpl. split; reflexivity.
Qed.

Section MonthlyFacts.
Variable parse_date : string -> option ISODate.

Lemma monthlyStats_Ok ds ms :
  monthlyStats_facet parse_date ds = Ok ms ->
  ms = sort (fun x y => month_id_leb (fst x) (fst y))
         (group month_id_eq_dec
                (fun dp : document * option ISODate => month_of (snd dp))
                (mkSums 0 0) (fun dp => sums_step (fst dp))
                (map (with_parsed parse_date) ds)).
Proof.
  unfold monthlyStats_facet.
  destruct (addFields_parsedDate parse_date ds) as [ps|] eqn:E;
    [|discriminate].
  apply addFields_Ok in E. subst ps. now inversion 1.
Qed.

Lemma monthlyStats_sorted ds ms :
  monthlyStats_facet parse_date ds = Ok ms ->
  StronglySorted month_before (map fst ms).
Proof.
  intros H. apply monthlyStats_Ok in H. subst ms.
  set (rows := group _ _ _ _ _).
  set (leb := fun x y : month_id * sums => month_id_leb (fst x) (fst y)).
  assert (N : NoDup (map fst (sort leb rows))).
  { apply (Permutation_NoDup (l := map fst rows)).
    - apply Permutation_map, Permutation_sym, sort_perm.
    - apply NoDup_group. }
  apply StronglySorted_impl
    with (R := fun x y => month_id_leb x y = true); [|exact N|].
  - intros x y _ _. intros Hn Hl. now apply month_id_leb_before.
  - apply StronglySorted_map. apply (sort_Sorted leb).
    + intros x y. apply month_id_leb_total.
    + intros x y z. apply month_id_leb_trans.
Qed.

Lemma monthlyStats_rows ds ms k row :
  monthlyStats_facet parse_date ds = Ok ms ->
  In (k, row) ms ->
  filter (in_month parse_date k) ds <> []
  /\ sumExpense row =
     amount_sum (filter (fun d => type_is "expense" d
                                  && in_month parse_date k d) ds)
  /\ sumIncome row =
     amount_sum (filter (fun d => type_is "income" d
                                  && in_month parse_date k d) ds).
Proof.
  intros H I. apply monthlyStats_Ok in H. subst ms.
  apply (Permutation_in _ (sort_perm _ _)) in I.
  apply group_row in I. destruct I as [Hne ->].
  rewrite members_with_parsed in *.
  rewrite (accumulate_fst sums_step) by reflexivity.
  rewrite accumulate_sums, !Zsum_cond_amount, !filter_filter. simpl.
  repeat split. intros E. apply Hne. now rewrite E.
Qed.

Lemma monthlyStats_keys ds ms d :
  monthlyStats_facet parse_date ds = Ok ms ->
  In d ds -> In (month_of (parsed parse_date d)) (map fst ms).
Proof.
  intros H I. apply monthlyStats_Ok in H. subst ms.
  apply (Permutation_in (l := map fst (group month_id_eq_dec
           (fun dp : document * option ISODate => month_of (snd dp))
           (mkSums 0 0) (fun dp => sums_step (fst dp))
           (map (with_parsed parse_date) ds)))).
  - apply Permutation_map, Permutation_sym, sort_perm.
  - apply (group_key month_id_eq_dec
             (fun dp : document * option ISODate => month_of (snd dp))
             _ _ (with_parsed parse_date d)).
    now apply in_map.
Qed.

Lemma monthlyStats_parses ds :
  (forall d, In d ds -> date_parses parse_date d) ->
  exists ms, monthlyStats_facet parse_date ds = Ok ms.
Proof.
  intros H. unfold monthlyStats_facet.
  rewrite addFields_parses by exact H. eauto.
Qed.

(** ** [/finance-stats] on the collection in memory *)

Lemma finance_stats_run ds :
  route (get_finance_stats Mem.collection parse_date) ds =
  match monthlyStats_facet parse_date ds, ds with
  | Ok ms, _ :: _ =>
      (Sent (mkResponse 200 (BFinanceStats (stats_of ds ms))), ds)
  | _, _ =>
      (Sent (mkResponse 500 (BError "Error fetching finance stats")), ds)
  end.
Proof.
  unfold route, get_finance_stats, try_catch, bind. simpl.
  unfold Mem.mem_aggregate, finance_pipeline.
  destruct (monthlyStats_facet parse_date ds) as [ms|e]; simpl.
  - rewrite totalStats_rows. destruct ds; reflexivity.
  - reflexivity.
Qed.

Lemma finance_stats_sent ds st r :
  fst (route (get_finance_stats Mem.collection parse_date) ds)
    = Sent (mkResponse st (BFinanceStats r)) ->
  ds <> [] /\ exists ms,
    monthlyStats_facet parse_date ds = Ok ms /\ r = stats_of ds ms.
Proof.
  rewrite finance_stats_run.
  destruct (monthlyStats_facet parse_date ds) as [ms|e];
    [destruct ds|]; simpl; intros H; inversion H; subst.
  split; [discriminate|eauto].
Qed.
End MonthlyFacts.

(** ** Identifiers and their text form *)

Lemma decode_of_byte b rest :
  Hex.decode (Hex.of_byte b ++ rest)%string =
  match Hex.decode rest with
  | Some bs => Some (b :: bs)
  | None => None
  end.
Proof. destruct b; reflexivity. Qed.

Lemma decode_encode o : Hex.decode (Hex.encode o) = Some o.
Proof.
  induction o as [|b o IH]; [reflexivity|].
  cbn [Hex.encode]. now rewrite decode_of_byte, IH.
Qed.

Lemma length_encode o :
  String.length (Hex.encode o) = (2 * List.length o)%nat.
Proof.
  induction o as [|b o IH]; [reflexivity|].
  cbn [Hex.encode]. unfold Hex.of_byte. cbn [String.append String.length].
  rewrite IH. cbn [List.length]. lia.
Qed.

Lemma new_ObjectId_toHexString o :
  is_ObjectId o = true -> new_ObjectId (toHexString o) = Some o.
Proof.
  unfold is_ObjectId, new_ObjectId, toHexString. intros H.
  apply Nat.eqb_eq in H. rewrite length_encode, H. apply decode_encode.
Qed.

(** ** Facts on the collection in memory *)

Module MemFacts.
Import Mem.

Lemma has_id_true o d : has_id o d = true <-> _id d = Generated o.
Proof.
  unfold has_id. destruct (_id d) as [o'|v]; [|easy].
  destruct (ObjectId_eq_dec o' o); split; congruence.
Qed.

Lemma has_doc_id_true i d : has_doc_id i d = true <-> _id d = i.
Proof. unfold has_doc_id. destruct (doc_id_eq_dec (_id d) i); easy. Qed.

Lemma find_absent o (s : store) :
  ~ In (Generated o) (map _id s) -> List.find (has_id o) s = None.
Proof.
  induction s as [|d s IH]; simpl; intros H; [reflexivity|].
  destruct (has_id o d) eqn:E.
  - apply has_id_true in E. tauto.
  - apply IH. tauto.
Qed.

Lemma existsb_absent i (s : store) :
  ~ In i (map _id s) -> existsb (has_doc_id i) s = false.
Proof.
  induction s as [|d s IH]; simpl; intros H; [reflexivity|].
  destruct (has_doc_id i d) eqn:E.
  - apply has_doc_id_true in E. tauto.
  - apply IH. tauto.
Qed.

Lemma find_appended o f (s : store) :
  ~ In (Generated o) (map _id s) ->
  List.find (has_id o) (s ++ [mkDocument (Generated o) f])%list
  = Some (mkDocument (Generated o) f).
Proof.
  induction s as [|d s IH]; simpl; intros H.
  - unfold has_id; simpl. destruct (ObjectId_eq_dec o o); congruence.
  - destruct (has_id o d) eqn:E.
    + apply has_id_true in E. tauto.
    + apply IH. tauto.
Qed.

Lemma find_replace_same o d d' (s : store) :
  List.find (has_id o) s = Some d -> _id d' = Generated o ->
  List.find (has_id o) (replace_first o d' s) = Some d'.
Proof.
  induction s as [|x s IH]; simpl; intros H E; [discriminate|].
  destruct (has_id o x) eqn:Hx; simpl.
  - apply has_id_true in E. now rewrite E.
  - rewrite Hx. auto.
Qed.

Lemma find_replace_other o o' d' (s : store) :
  o' <> o -> _id d' = Generated o ->
  List.find (has_id o') (replace_first o d' s) = List.find (has_id o') s.
Proof.
  intros N E. induction s as [|x s IH]; simpl; [reflexivity|].
  destruct (has_id o x) eqn:Hx; simpl.
  - apply has_id_true in Hx.
    assert (has_id o' d' = false) as ->.
    { destruct (has_id o' d') eqn:H; [|reflexivity].
      apply has_id_true in H. congruence. }
    assert (has_id o' x = false) as ->.
    { destruct (has_id o' x) eqn:H; [|reflexivity].
      apply has_id_true in H. congruence. }
    reflexivity.
  - destruct (has_id o' x); [reflexivity|exact IH].
Qed.

Lemma length_replace_first o d' (s : store) :
  List.length (replace_first o d' s) = List.length s.
Proof.
  induction s as [|x s IH]; simpl; [reflexivity|].
  destruct (has_id o x); simpl; congruence.
Qed.

End MemFacts.

(** ** The routes: creation, lookup, deletion, update *)

(** C1: on the empty collection [/finance-stats] does not answer with the
    object of zeros: the [totalStats] facet has no row, the read of
    [totalStats[0].totalExpense] throws, and the [catch] branch answers
    with status 500 and the message of the route. *)
Theorem finance_stats_empty_store (parse_date : string -> option ISODate) :
  route (get_finance_stats Mem.collection parse_date) [] =
  (Sent (mkResponse 500 (BError "Error fetching finance stats")), []).
Proof. reflexivity. Qed.

(** C7 (as stated, refuted): a record sent with an [_id] of its own is
    stored and acknowledged under that value, and the lookup with it does
    not answer with the record: for the [_id] [abc] the lookup throws in
    [new ObjectId], and for an [_id] of 24 hexadecimal digits, which is
    stored as a string, the lookup by the [ObjectId] of those digits finds
    nothing. *)
Lemma create_with_own_id_not_found :
  (exists s',
      route (post_finance Mem.collection Sample.id_other
               (mkBody (Some (VStr "abc")) Sample.lunch)) []
      = (Sent (mkResponse 200
                 (BInserted {| insertedId := Supplied (VStr "abc") |})), s')
      /\ route (get_finance_id Mem.collection "abc") s'
         = (Uncaught BSONError, s'))
  /\ (exists s',
         route (post_finance Mem.collection Sample.id_other
                  (mkBody (Some (VStr "65a100000000000000000001"))
                          Sample.lunch)) []
         = (Sent (mkResponse 200
                    (BInserted
                       {| insertedId :=
                            Supplied (VStr "65a100000000000000000001") |})),
            s')
         /\ route (get_finance_id Mem.collection "65a100000000000000000001")
                  s'
            = (Sent (mkResponse 200 BNull), s')).
Proof. split; eexists; split; reflexivity. Qed.

(** C7 (amended): for a record sent without an [_id] of its own, after
    [POST /finance] has stored it under the identifier generated for it,
    [GET /finance/:id] with that identifier's text form answers with the
    record as it was sent, together with the identifier. *)
Theorem get_after_create (s : Mem.store) (generated : ObjectId)
  (finance : request_body) :
  has_own_id finance = false ->
  is_ObjectId generated = true ->
  ~ In (Generated generated) (map _id s) ->
  exists s',
    route (post_finance Mem.collection generated finance) s =
      (Sent (mkResponse 200
               (BInserted {| insertedId := Generated generated |})), s')
    /\ route (get_finance_id Mem.collection (toHexString generated)) s' =
      (Sent (mkResponse 200
               (BDocument (mkDocument (Generated generated)
                                      (fields finance)))), s').
Proof.
  intros Hown Hid Hfresh.
  assert (Ea : Mem.assigned_id generated finance = Generated generated).
  { unfold has_own_id in Hown. unfold Mem.assigned_id.
    destruct (body_id finance) as [[| | |]|]; try reflexivity;
      discriminate. }
  exists (s ++ [mkDocument (Generated generated) (fields finance)])%list.
  split.
  - unfold route, post_finance, bind; simpl. unfold Mem.mem_insertOne.
    rewrite Ea. now rewrite MemFacts.existsb_absent.
  - unfold route, get_finance_id, bind, construct_ObjectId.
    rewrite new_ObjectId_toHexString by exact Hid. simpl.
    unfold Mem.mem_findOne.
    now rewrite MemFacts.find_appended.
Qed.

(** C8: [DELETE /finance/:id] with a well-formed identifier that no stored
    record has answers with a deletion count of zero, raises nothing and
    leaves the collection as it was. *)
Theorem delete_absent (s : Mem.store) (id : string) (o : ObjectId) :
  new_ObjectId id = Some o ->
  ~ In (Generated o) (map _id s) ->
  route (delete_finance_id Mem.collection id) s =
  (Sent (mkResponse 200 (BDeleted {| deletedCount := 0 |})), s).
Proof.
  intros Hid Habs.
  unfold route, delete_finance_id, bind, construct_ObjectId.
  rewrite Hid. simpl. unfold Mem.mem_deleteOne.
  now rewrite MemFacts.find_absent.
Qed.

(** C5: [PATCH /finance/:id] on an existing record writes all six fields
    from the patch; a field the patch lacks becomes [null] and does not
    keep its old value.  The identifier stays, and no other record is
    touched. *)
Theorem patch_replaces_all_fields (s : Mem.store) (financeId : string)
  (o : ObjectId) (d : document) (data : finance) :
  new_ObjectId financeId = Some o ->
  List.find (Mem.has_id o) s = Some d ->
  exists ack s' d',
    route (patch_finance_id Mem.collection financeId data) s =
      (Sent (mkResponse 200 (BUpdated ack)), s')
    /\ matchedCount ack = 1
    /\ List.find (Mem.has_id o) s' = Some d'
    /\ _id d' = _id d
    /\ title (doc d') = replaced (title data)
    /\ amount (doc d') = replaced (amount data)
    /\ description (doc d') = replaced (description data)
    /\ date (doc d') = replaced (date data)
    /\ category (doc d') = replaced (category data)
    /\ type (doc d') = replaced (type data)
    /\ List.length s' = List.length s
    /\ forall o', o' <> o ->
         List.find (Mem.has_id o') s' = List.find (Mem.has_id o') s.
Proof.
  intros Hid Hd.
  pose proof (proj2 (find_some _ _ Hd)) as E. apply MemFacts.has_id_true in E.
  unfold route, patch_finance_id, bind, construct_ObjectId.
  rewrite Hid. simpl. unfold Mem.mem_updateOne. rewrite Hd.
  eexists _, _, _. split; [reflexivity|]. simpl.
  split; [reflexivity|]. split.
  - apply MemFacts.find_replace_same with (d := d); [exact Hd|exact E].
  - simpl. unfold replaced, field_or_null, Mem.serialize.
    destruct data as [[?|] [?|] [?|] [?|] [?|] [?|]]; simpl;
      repeat (split; [reflexivity|]);
      (split; [apply MemFacts.length_replace_first|]);
      intros o' N; now apply MemFacts.find_replace_other.
Qed.

(** C6 (as stated, refuted): for the id [abc], which is no identifier,
    [GET /finance/:id] sends no client-error response: the exception of
    [new ObjectId] leaves the callback and nothing is sent. *)
Lemma get_malformed_id_no_client_error :
  new_ObjectId "abc" = None
  /\ fst (route (get_finance_id Mem.collection "abc") []) = Uncaught BSONError
  /\ ~ client_error (fst (route (get_finance_id Mem.collection "abc") [])).
Proof.
  split; [reflexivity|]. split; [reflexivity|].
  intros [st [b [H _]]]. discriminate H.
Qed.

(** C6 (amended): for an id that is no identifier, [GET /finance/:id]
    fails in [new ObjectId], before the collection is asked, whatever the
    collection is: the route sends nothing and the state is unchanged.
    The failure differs from the not-found result, which for a well-formed
    identifier of no stored record is a response with status 200 and the
    body [null]. *)
Theorem get_malformed_id_throws :
  (forall (St : Type) (c : Collection St) (id : string) (s : St),
      new_ObjectId id = None ->
      route (get_finance_id c id) s = (Uncaught BSONError, s))
  /\ (forall (s : Mem.store) (id : string) (o : ObjectId),
         new_ObjectId id = Some o ->
         ~ In (Generated o) (map _id s) ->
         route (get_finance_id Mem.collection id) s =
         (Sent (mkResponse 200 BNull), s)).
Proof.
  split.
  - intros St c id s H.
    unfold route, get_finance_id, bind, construct_ObjectId.
    now rewrite H.
  - intros s id o H N.
    unfold route, get_finance_id, bind, construct_ObjectId.
    rewrite H. simpl. unfold Mem.mem_findOne.
    now rewrite MemFacts.find_absent.
Qed.

(** C10: the four reading routes (list, lookup by id, finance statistics,
    category statistics) leave the stored records as they were, whatever
    they answer. *)
Theorem reads_leave_store (parse_date : string -> option ISODate)
  (s : Mem.store) :
  snd (route (get_finance Mem.collection) s) = s
  /\ (forall id, snd (route (get_finance_id Mem.collection id) s) = s)
  /\ snd (route (get_finance_stats Mem.collection parse_date) s) = s
  /\ snd (route (get_category_stats Mem.collection) s) = s.
Proof.
  split; [reflexivity|]. split; [|split].
  - intros id. unfold route, get_finance_id, bind, construct_ObjectId.
    destruct (new_ObjectId id); reflexivity.
  - rewrite finance_stats_run.
    destruct (monthlyStats_facet parse_date s); [destruct s|]; reflexivity.
  - reflexivity.
Qed.

(** ** The statistics routes *)

Lemma StronglySorted_weaken {A} (R Q : A -> A -> Prop) (l : list A) :
  (forall x y, R x y -> Q x y) -> StronglySorted R l -> StronglySorted Q l.
Proof.
  intros H. induction 1 as [|a l S IH F]; constructor; auto.
  rewrite Forall_forall in *. auto.
Qed.

Lemma type_is_other t d :
  type (doc d) <> Some (VStr t) -> type_is t d = false.
Proof.
  unfold type_is. destruct (type (doc d)) as [[| | |s]|]; auto.
  intros H. destruct (String.eqb_spec s t); congruence.
Qed.

Lemma filter_without {A} (p q : A -> bool) l1 x l2 :
  p x = false ->
  filter (fun d => p d && q d) (l1 ++ x :: l2)
  = filter (fun d => p d && q d) (l1 ++ l2).
Proof. intros H. rewrite !filter_app. simpl. now rewrite H. Qed.

Lemma filter_without1 {A} (p : A -> bool) l1 x l2 :
  p x = false -> filter p (l1 ++ x :: l2) = filter p (l1 ++ l2).
Proof. intros H. rewrite !filter_app. simpl. now rewrite H. Qed.

Lemma in_month_falls_in parse_date y m d :
  in_month parse_date (Some (y, m)) d = falls_in parse_date y m d.
Proof.
  unfold in_month, falls_in, month_of.
  destruct (parsed parse_date d) as [p|].
  - destruct (month_id_eq_dec (Some (year p, month p)) (Some (y, m)))
      as [e|n].
    + inversion e. now rewrite !Z.eqb_refl.
    + destruct (Z.eqb_spec (year p) y), (Z.eqb_spec (month p) m);
        try reflexivity. congruence.
  - destruct (month_id_eq_dec None (Some (y, m))); easy.
Qed.

Lemma filter_nonempty {A} (p : A -> bool) l :
  filter p l <> [] -> exists x, In x l /\ p x = true.
Proof.
  destruct (filter p l) as [|x xs] eqn:E; [congruence|]. intros _.
  exists x. apply filter_In. rewrite E. now left.
Qed.

(** C9: a failure inside [/finance-stats] or [/category-stats] never
    leaves the route: whatever the collection does, the route answers; if
    an [aggregate] call throws, the answer is status 500 with the route's
    message.  On the collection in memory, a record whose [date] is a
    string that does not parse makes [/finance-stats] answer so: the
    record is not dropped from the months in silence. *)
Theorem stats_failures_reported :
  (forall (St : Type) (c : Collection St)
          (parse_date : string -> option ISODate) (s : St),
      (exists r s', route (get_finance_stats c parse_date) s = (Sent r, s'))
      /\ (forall e s',
             aggregate c (finance_pipeline parse_date) s = (Throw e, s') ->
             route (get_finance_stats c parse_date) s =
             (Sent (mkResponse 500 (BError "Error fetching finance stats")),
              s')))
  /\ (forall (St : Type) (c : Collection St) (s : St),
         (exists r s', route (get_category_stats c) s = (Sent r, s'))
         /\ (forall e s',
                aggregate c (category_pipeline "expense") s = (Throw e, s') ->
                route (get_category_stats c) s =
                (Sent (mkResponse 500
                         (BError "Error fetching category stats")), s'))
         /\ (forall x s1 e s',
                aggregate c (category_pipeline "expense") s = (Ok x, s1) ->
                aggregate c (category_pipeline "income") s1 = (Throw e, s') ->
                route (get_category_stats c) s =
                (Sent (mkResponse 500
                         (BError "Error fetching category stats")), s')))
  /\ (forall (parse_date : string -> option ISODate) (s : Mem.store)
             (d : document) (str : string),
         In d s ->
         date (doc d) = Some (VStr str) ->
         parse_date str = None ->
         route (get_finance_stats Mem.collection parse_date) s =
         (Sent (mkResponse 500 (BError "Error fetching finance stats")), s)).
Proof.
  split; [|split].
  - intros St c parse_date s.
    unfold route, get_finance_stats, try_catch, bind.
    destruct (aggregate c (finance_pipeline parse_date) s) as [[fs|e] s1].
    + split; [|discriminate].
      destruct fs as [|f fs]; simpl; [eauto|].
      destruct (totalStats f); simpl; eauto.
    + split; [simpl; eauto|]. intros e' s' H. now inversion H.
  - intros St c s.
    unfold route, get_category_stats, try_catch, bind.
    destruct (aggregate c (category_pipeline "expense") s) as [[x|e] s1].
    + destruct (aggregate c (category_pipeline "income") s1)
        as [[y|e] s2] eqn:E2.
      * split; [simpl; eauto|]. split; [discriminate|].
        intros x' s1' e s' H. inversion H; subst. rewrite E2. discriminate.
      * split; [simpl; eauto|]. split; [discriminate|].
        intros x' s1' e' s' H. inversion H; subst. rewrite E2.
        intros H2. now inversion H2.
    + split; [simpl; eauto|]. split.
      * intros e' s' H. now inversion H.
      * discriminate.
  - intros parse_date s d str Hin Hd Hp.
    rewrite finance_stats_run. unfold monthlyStats_facet.
    destruct (addFields_Throw parse_date s d ConversionFailure Hin)
      as [e' ->]; [|reflexivity].
    unfold dateFromString. now rewrite Hd, Hp.
Qed.

(** C2: when every record's [date] parses, the [monthlyStats] list that
    [/finance-stats] returns is in strictly ascending order of (year,
    month); each row is for a year and month in which some record falls,
    and its two totals are the sums of [amount] over the expense records,
    and over the income records, whose parsed date falls in that year and
    month; every record's month has a row.  The route does return the list
    as soon as there is a record. *)
Theorem monthly_stats_sorted_and_summed
  (parse_date : string -> option ISODate) (ds : Mem.store) :
  (forall d, In d ds -> date_parses parse_date d) ->
  (ds <> [] ->
   exists r,
     fst (route (get_finance_stats Mem.collection parse_date) ds)
     = Sent (mkResponse 200 (BFinanceStats r)))
  /\ forall st r,
      fst (route (get_finance_stats Mem.collection parse_date) ds)
      = Sent (mkResponse st (BFinanceStats r)) ->
      StronglySorted month_before (map fst (r_monthlyStats r))
      /\ (forall k row, In (k, row) (r_monthlyStats r) ->
            exists y m,
              k = Some (y, m)
              /\ (exists d, In d ds /\ falls_in parse_date y m d = true)
              /\ sumExpense row =
                 amount_sum (filter (fun d => type_is "expense" d
                                      && falls_in parse_date y m d) ds)
              /\ sumIncome row =
                 amount_sum (filter (fun d => type_is "income" d
                                      && falls_in parse_date y m d) ds))
      /\ (forall d, In d ds ->
            exists y m row,
              falls_in parse_date y m d = true
              /\ In (Some (y, m), row) (r_monthlyStats r)).
Proof.
  intros Hparse. split.
  - intros Hne. rewrite finance_stats_run.
    destruct (monthlyStats_parses parse_date ds Hparse) as [ms ->].
    destruct ds; [congruence|]. simpl. eauto.
  - intros st r H. apply finance_stats_sent in H.
    destruct H as [_ [ms [Hms ->]]]. cbn [r_monthlyStats stats_of].
    split; [|split].
    + exact (monthlyStats_sorted parse_date ds ms Hms).
    + intros k row Hin.
      destruct (monthlyStats_rows parse_date ds ms k row Hms Hin)
        as [Hne [He Hi]].
      apply filter_nonempty in Hne. destruct Hne as [d [Hd Hk]].
      unfold in_month in Hk.
      destruct (month_id_eq_dec (month_of (parsed parse_date d)) k)
        as [E|]; [|discriminate].
      destruct (Hparse d Hd) as [s [p [E1 E2]]].
      assert (Ep : parsed parse_date d = Some p)
        by (unfold parsed; now rewrite E1).
      rewrite Ep in E. simpl in E. subst k.
      exists (year p), (month p). split; [reflexivity|]. split.
      * exists d. split; [exact Hd|].
        unfold falls_in. now rewrite Ep, !Z.eqb_refl.
      * rewrite He, Hi. split; f_equal; apply filter_ext; intros x;
          now rewrite in_month_falls_in.
    + intros d Hd.
      pose proof (monthlyStats_keys parse_date ds ms d Hms Hd) as Hk.
      destruct (Hparse d Hd) as [s [p [E1 E2]]].
      assert (Ep : parsed parse_date d = Some p)
        by (unfold parsed; now rewrite E1).
      rewrite Ep in Hk. simpl in Hk.
      apply in_map_iff in Hk. destruct Hk as [[k row] [Ek Hin]].
      simpl in Ek. subst k.
      exists (year p), (month p), row. split; [|exact Hin].
      unfold falls_in. now rewrite Ep, !Z.eqb_refl.
Qed.

(** C3: a record whose [type] is neither [income] nor [expense] adds
    nothing to [totalExpense] and [totalIncome], in the global totals, in
    every category row and in every month row of [/finance-stats]: each of
    these sums is the sum over the other records alone.  The record is
    counted in [totalTransactions], which is the number of all records. *)
Theorem other_type_counts_but_adds_nothing
  (parse_date : string -> option ISODate) (ds1 ds2 : Mem.store)
  (r : document) :
  type (doc r) <> Some (VStr "expense") ->
  type (doc r) <> Some (VStr "income") ->
  ((forall d, In d (ds1 ++ r :: ds2) -> date_parses parse_date d) ->
   exists resp,
     fst (route (get_finance_stats Mem.collection parse_date)
            (ds1 ++ r :: ds2)%list)
     = Sent (mkResponse 200 (BFinanceStats resp)))
  /\ forall st resp,
      fst (route (get_finance_stats Mem.collection parse_date)
             (ds1 ++ r :: ds2)%list)
      = Sent (mkResponse st (BFinanceStats resp)) ->
      r_totalExpense resp = amount_sum (filter (type_is "expense") (ds1 ++ ds2))
      /\ r_totalIncome resp = amount_sum (filter (type_is "income") (ds1 ++ ds2))
      /\ r_totalTransactions resp = Z.of_nat (List.length (ds1 ++ ds2)) + 1
      /\ r_totalTransactions resp = Z.of_nat (List.length (ds1 ++ r :: ds2))
      /\ (forall c row, In (c, row) (r_categoryStats resp) ->
            sumExpense row =
              amount_sum (filter (fun d => type_is "expense" d
                                   && category_is c d) (ds1 ++ ds2))
            /\ sumIncome row =
              amount_sum (filter (fun d => type_is "income" d
                                   && category_is c d) (ds1 ++ ds2)))
      /\ (forall k row, In (k, row) (r_monthlyStats resp) ->
            sumExpense row =
              amount_sum (filter (fun d => type_is "expense" d
                                   && in_month parse_date k d) (ds1 ++ ds2))
            /\ sumIncome row =
              amount_sum (filter (fun d => type_is "income" d
                                   && in_month parse_date k d) (ds1 ++ ds2))).
Proof.
  intros He Hi. apply type_is_other in He, Hi. split.
  - intros Hparse. rewrite finance_stats_run.
    destruct (monthlyStats_parses parse_date _ Hparse) as [ms ->].
    destruct ds1; simpl; eauto.
  - intros st resp H. apply finance_stats_sent in H.
    destruct H as [_ [ms [Hms ->]]].
    cbn [r_totalExpense r_totalIncome r_totalTransactions r_categoryStats
         r_monthlyStats stats_of].
    rewrite !filter_without1 by assumption.
    repeat split.
    + rewrite !length_app. simpl. lia.
    + apply categoryStats_rows in H. destruct H as [-> _].
      now rewrite filter_without.
    + apply categoryStats_rows in H. destruct H as [_ ->].
      now rewrite filter_without.
    + destruct (monthlyStats_rows parse_date _ ms k row Hms H)
        as [_ [-> _]].
      now rewrite filter_without.
    + destruct (monthlyStats_rows parse_date _ ms k row Hms H)
        as [_ [_ ->]].
      now rewrite filter_without.
Qed.

(** C4: [/category-stats] answers with two lists, one for the expense
    records and one for the income records.  Each list is in descending
    order of [totalAmount] (rows of equal amount in any order), has one
    row per category of the records of its type, and in each row
    [categoryCount] is the number of those records in the category and
    [totalAmount] the sum of their amounts. *)
Theorem category_stats_ranked (ds : Mem.store) :
  exists expenseStats incomeStats,
    route (get_category_stats Mem.collection) ds =
      (Sent (mkResponse 200 (BCategoryStats expenseStats incomeStats)), ds)
    /\ ranked "expense" ds expenseStats
    /\ ranked "income" ds incomeStats.
Proof.
  assert (R : forall t,
             ranked t ds
               (sort ranking_leb
                  (group value_eq_dec
                         (fun d => field_or_null (category (doc d)))
                         (mkRanking 0 0) ranking_step (match_type t ds)))).
  { intros t. set (rows := group _ _ _ _ _).
    assert (P := sort_perm ranking_leb rows).
    unfold ranked. repeat split.
    - apply StronglySorted_weaken
        with (R := fun x y => ranking_leb x y = true).
      + intros x y. unfold ranking_leb, amount_ge. rewrite Z.leb_le. lia.
      + apply sort_Sorted.
        * apply ranking_leb_total.
        * apply ranking_leb_trans.
    - apply (Permutation_NoDup (l := map fst rows)).
      + apply Permutation_map, Permutation_sym, P.
      + apply NoDup_group.
    - apply (Permutation_in _ P) in H. apply group_row in H.
      destruct H as [_ ->]. rewrite accumulate_ranking. simpl.
      unfold members, match_type. rewrite filter_filter.
      do 2 f_equal. apply filter_ext. intros x. apply andb_comm.
    - apply (Permutation_in _ P) in H. apply group_row in H.
      destruct H as [_ ->]. rewrite accumulate_ranking. simpl.
      unfold members, match_type. rewrite filter_filter.
      f_equal. apply filter_ext. intros x. apply andb_comm.
    - apply (Permutation_in _ P) in H. apply group_row in H.
      destruct H as [Hne ->]. rewrite accumulate_ranking. simpl.
      destruct (members _ _ _ _); [congruence|]. simpl. lia.
    - intros d Hd Ht.
      apply (Permutation_in (l := map fst rows)).
      + apply Permutation_map, Permutation_sym, P.
      + apply (group_key value_eq_dec
                 (fun d => field_or_null (category (doc d))) _ _ d).
        apply filter_In. now split. }
  eexists _, _. split; [reflexivity|]. split; apply R.
Qed.

(** ** The theorems at the sample records *)

(** Creation and lookup at the sample records. *)
Lemma get_after_create_sample :
  has_own_id (mkBody None Sample.slashed) = false
  /\ is_ObjectId Sample.id_other = true
  /\ ~ In (Generated Sample.id_other) (map _id Sample.records)
  /\ exists s',
      route (post_finance Mem.collection Sample.id_other
               (mkBody None Sample.slashed))
            Sample.records =
        (Sent (mkResponse 200
                 (BInserted {| insertedId := Generated Sample.id_other |})),
         s')
      /\ route (get_finance_id Mem.collection "65a1000000000000000000ff") s' =
        (Sent (mkResponse 200 (BDocument Sample.slashed_doc)), s').
Proof.
  assert (F : ~ In (Generated Sample.id_other)
                    (map _id Sample.records))
    by (simpl; intros [H|[H|[H|[]]]]; discriminate H).
  split; [reflexivity|]. split; [reflexivity|]. split; [exact F|].
  exact (get_after_create Sample.records Sample.id_other
           (mkBody None Sample.slashed) eq_refl eq_refl F).
Defined.

(** Deletion of an identifier the sample store does not hold. *)
Lemma delete_absent_sample :
  new_ObjectId "65a1000000000000000000ff" = Some Sample.id_other
  /\ ~ In (Generated Sample.id_other) (map _id Sample.records)
  /\ route (delete_finance_id Mem.collection "65a1000000000000000000ff")
           Sample.records =
     (Sent (mkResponse 200 (BDeleted {| deletedCount := 0 |})),
      Sample.records).
Proof.
  assert (F : ~ In (Generated Sample.id_other)
                    (map _id Sample.records))
    by (simpl; intros [H|[H|[H|[]]]]; discriminate H).
  split; [reflexivity|]. split; [exact F|].
  exact (delete_absent Sample.records "65a1000000000000000000ff"
           Sample.id_other eq_refl F).
Defined.

(** A patch with a title alone empties the description of the sample
    record. *)
Lemma patch_replaces_sample :
  new_ObjectId "65a100000000000000000001" = Some Sample.id_lunch
  /\ List.find (Mem.has_id Sample.id_lunch) Sample.records
     = Some Sample.lunch_doc
  /\ exists ack s' d',
      route (patch_finance_id Mem.collection "65a100000000000000000001"
               Sample.retitle) Sample.records =
        (Sent (mkResponse 200 (BUpdated ack)), s')
      /\ List.find (Mem.has_id Sample.id_lunch) s' = Some d'
      /\ title (doc d') = Some (VStr "Dinner")
      /\ description (doc d') = Some VNull.
Proof.
  split; [reflexivity|]. split; [reflexivity|].
  destruct (patch_replaces_all_fields Sample.records
              "65a100000000000000000001" Sample.id_lunch Sample.lunch_doc
              Sample.retitle eq_refl eq_refl)
    as [ack [s' [d' [Hr [_ [Hf [_ [Ht [_ [Hd _]]]]]]]]]].
  exists ack, s', d'. repeat split; assumption.
Defined.

(** The id [abc] against an identifier that no sample record has. *)
Lemma get_malformed_id_sample :
  new_ObjectId "abc" = None
  /\ route (get_finance_id Mem.collection "abc") Sample.records =
     (Uncaught BSONError, Sample.records)
  /\ route (get_finance_id Down.collection "abc") tt =
     (Uncaught BSONError, tt)
  /\ new_ObjectId "65a1000000000000000000ff" = Some Sample.id_other
  /\ ~ In (Generated Sample.id_other) (map _id Sample.records)
  /\ route (get_finance_id Mem.collection "65a1000000000000000000ff")
           Sample.records =
     (Sent (mkResponse 200 BNull), Sample.records).
Proof.
  assert (F : ~ In (Generated Sample.id_other)
                    (map _id Sample.records))
    by (simpl; intros [H|[H|[H|[]]]]; discriminate H).
  split; [reflexivity|]. split.
  { exact (proj1 get_malformed_id_throws Mem.store Mem.collection "abc"
             Sample.records eq_refl). }
  split.
  { exact (proj1 get_malformed_id_throws unit Down.collection "abc" tt
             eq_refl). }
  split; [reflexivity|]. split; [exact F|].
  exact (proj2 get_malformed_id_throws Sample.records
           "65a1000000000000000000ff" Sample.id_other eq_refl F).
Defined.

(** A date written with slashes, and a server that cannot be reached. *)
Lemma stats_failures_sample :
  In Sample.slashed_doc (Sample.slashed_doc :: Sample.records)
  /\ date (doc Sample.slashed_doc) = Some (VStr "15/01/2024")
  /\ Strict.parse_date "15/01/2024" = None
  /\ route (get_finance_stats Mem.collection Strict.parse_date)
           (Sample.slashed_doc :: Sample.records) =
     (Sent (mkResponse 500 (BError "Error fetching finance stats")),
      Sample.slashed_doc :: Sample.records)
  /\ aggregate Down.collection (finance_pipeline Strict.parse_date) tt =
     (Throw Down.unavailable, tt)
  /\ route (get_finance_stats Down.collection Strict.parse_date) tt =
     (Sent (mkResponse 500 (BError "Error fetching finance stats")), tt)
  /\ aggregate Down.collection (category_pipeline "expense") tt =
     (Throw Down.unavailable, tt)
  /\ route (get_category_stats Down.collection) tt =
     (Sent (mkResponse 500 (BError "Error fetching category stats")), tt).
Proof.
  destruct stats_failures_reported as [Hf [Hc Hd]].
  split; [now left|]. split; [reflexivity|]. split; [reflexivity|].
  split.
  { exact (Hd Strict.parse_date (Sample.slashed_doc :: Sample.records)
              Sample.slashed_doc "15/01/2024" (or_introl eq_refl)
              eq_refl eq_refl). }
  split; [reflexivity|]. split.
  { exact (proj2 (Hf unit Down.collection Strict.parse_date tt)
             Down.unavailable tt eq_refl). }
  split; [reflexivity|].
  exact (proj1 (proj2 (Hc unit Down.collection tt))
           Down.unavailable tt eq_refl).
Defined.

(** Every date of the sample records parses strictly. *)
Lemma sample_dates_parse :
  forall d, In d Sample.records -> date_parses Strict.parse_date d.
Proof.
  intros d [<-|[<-|[<-|[]]]]; eexists _, _; split; reflexivity.
Defined.

(** The month rows of the sample records. *)
Lemma monthly_stats_sample :
  (forall d, In d Sample.records -> date_parses Strict.parse_date d)
  /\ exists r,
      fst (route (get_finance_stats Mem.collection Strict.parse_date)
             Sample.records)
      = Sent (mkResponse 200 (BFinanceStats r))
      /\ r_monthlyStats r = [(Some (2023, 12), mkSums 0 0);
                             (Some (2024, 1), mkSums 100 50)]
      /\ StronglySorted month_before (map fst (r_monthlyStats r))
      /\ forall d, In d Sample.records ->
           exists y m row,
             falls_in Strict.parse_date y m d = true
             /\ In (Some (y, m), row) (r_monthlyStats r).
Proof.
  split; [exact sample_dates_parse|].
  destruct (monthly_stats_sorted_and_summed Strict.parse_date Sample.records
              sample_dates_parse) as [_ P].
  eexists. split; [reflexivity|]. split; [reflexivity|].
  split; apply (P 200 _ eq_refl).
Defined.

(** The transfer among the sample records is counted and adds nothing. *)
Lemma other_type_sample :
  type (doc Sample.transfer_doc) <> Some (VStr "expense")
  /\ type (doc Sample.transfer_doc) <> Some (VStr "income")
  /\ exists resp,
      fst (route (get_finance_stats Mem.collection Strict.parse_date)
             Sample.records)
      = Sent (mkResponse 200 (BFinanceStats resp))
      /\ r_totalExpense resp = 100
      /\ r_totalIncome resp = 50
      /\ r_totalTransactions resp = 3.
Proof.
  assert (N1 : type (doc Sample.transfer_doc) <> Some (VStr "expense"))
    by discriminate.
  assert (N2 : type (doc Sample.transfer_doc) <> Some (VStr "income"))
    by discriminate.
  split; [exact N1|]. split; [exact N2|].
  destruct (other_type_counts_but_adds_nothing Strict.parse_date
              [Sample.lunch_doc] [Sample.salary_doc] Sample.transfer_doc
              N1 N2) as [E P].
  destruct (E sample_dates_parse) as [resp Hr].
  exists resp. split; [exact Hr|].
  destruct (P 200 resp Hr) as [He [Hi [Hn _]]].
  rewrite He, Hi, Hn. repeat split; reflexivity.
Defined.

(** The scenario of two records: an expense of 100 on 2024-01-15 and an
    income of 50 on 2024-01-20 give totals 100 and 50, two transactions and
    one month row for (2024, 1). *)
Example scenario_two_records :
  fst (route (get_finance_stats Mem.collection Strict.parse_date)
         [Sample.lunch_doc; Sample.salary_doc])
  = Sent (mkResponse 200
            (BFinanceStats
               (mkStats 100 50 2
                        [(VStr "food", mkSums 100 0);
                         (VStr "salary", mkSums 0 50)]
                        [(Some (2024, 1), mkSums 100 50)]))).
Proof. reflexivity. Qed.

(** The two rankings of the sample records. *)
Example scenario_category_stats :
  fst (route (get_category_stats Mem.collection)
         (Sample.slashed_doc :: Sample.records))
  = Sent (mkResponse 200
            (BCategoryStats
               [(VStr "food", mkRanking 1 100);
                (VStr "travel", mkRanking 1 12)]
               [(VStr "salary", mkRanking 1 50)])).
Proof. reflexivity. Qed.

(** The strict parser on well-formed and ill-formed strings. *)
Example strict_parse_date_cases :
  Strict.parse_date "2024-01-15" = Some (mkDate 2024 1 15)
  /\ Strict.parse_date "2024-13-01" = None
  /\ Strict.parse_date "2024-1-15" = None
  /\ Strict.parse_date "15/01/2024" = None.
Proof. repeat split; reflexivity. Qed.

(** Two categories of equal amount: either order of their rows is a
    ranking of the expense records. *)
Example ranked_ties_either_order :
  ranked "expense" [Sample.lunch_doc; Sample.snack_doc]
         [(VStr "food", mkRanking 1 100); (VStr "snack", mkRanking 1 100)]
  /\ ranked "expense" [Sample.lunch_doc; Sample.snack_doc]
            [(VStr "snack", mkRanking 1 100); (VStr "food", mkRanking 1 100)].
Proof.
  split; unfold ranked; (split; [|split; [|split]]).
  all: try (repeat constructor; unfold amount_ge; simpl; lia).
  all: try (repeat constructor; simpl; intuition discriminate).
  all: try (intros c r [H|[H|[]]]; inversion H; subst;
            repeat split; reflexivity).
  all: intros d [<-|[<-|[]]] _; simpl; auto.
Qed.

(** ** Further facts on the collection in memory *)

Module StoreFacts.
Import Mem.

Lemma find_unique o d (s : store) :
  NoDup (ids s) -> In d s -> _id d = Generated o ->
  List.find (has_id o) s = Some d.
Proof.
  unfold ids. induction s as [|x s IH]; simpl; intros N H E; [easy|].
  inversion N as [|? ? Hn N']; subst.
  destruct H as [->|H].
  - apply MemFacts.has_id_true in E. now rewrite E.
  - destruct (has_id o x) eqn:Ex; [|auto].
    apply MemFacts.has_id_true in Ex. exfalso. apply Hn.
    rewrite Ex, <- E. now apply in_map.
Qed.

Lemma find_In o d (s : store) :
  List.find (has_id o) s = Some d -> In d s /\ _id d = Generated o.
Proof.
  intros H. apply find_some in H. destruct H as [H E].
  now apply MemFacts.has_id_true in E.
Qed.

Lemma remove_first_In o d (s : store) :
  In d (remove_first o s) -> In d s.
Proof.
  induction s as [|x s IH]; simpl; [easy|].
  destruct (has_id o x); simpl; intuition.
Qed.

Lemma remove_first_keeps o d (s : store) :
  In d s -> _id d <> Generated o -> In d (remove_first o s).
Proof.
  induction s as [|x s IH]; simpl; [easy|]. intros [->|H] N.
  - destruct (has_id o d) eqn:E.
    + apply MemFacts.has_id_true in E. contradiction.
    + now left.
  - destruct (has_id o x); [exact H|]. right. auto.
Qed.

Lemma remove_first_ids_In o i (s : store) :
  In i (ids (remove_first o s)) -> In i (ids s).
Proof.
  unfold ids. intros H. apply in_map_iff in H. destruct H as [d [E H]].
  apply in_map_iff. exists d. split; [exact E|].
  now apply remove_first_In with (o := o).
Qed.

Lemma remove_first_NoDup o (s : store) :
  NoDup (ids s) -> NoDup (ids (remove_first o s)).
Proof.
  unfold ids. induction s as [|x s IH]; simpl; intros N; [constructor|].
  inversion N as [|? ? Hn N']; subst.
  destruct (has_id o x); [exact N'|]. simpl. constructor; [|auto].
  intros H. apply Hn. now apply remove_first_ids_In with (o := o).
Qed.

Lemma remove_first_gone o (s : store) :
  NoDup (ids s) -> ~ In (Generated o) (ids (remove_first o s)).
Proof.
  unfold ids. induction s as [|x s IH]; simpl; intros N; [easy|].
  inversion N as [|? ? Hn N']; subst.
  destruct (has_id o x) eqn:E.
  - apply MemFacts.has_id_true in E. now rewrite <- E.
  - simpl. intros [H|H]; [|now apply IH].
    apply MemFacts.has_id_true in H. congruence.
Qed.

Lemma remove_first_length o d (s : store) :
  List.find (has_id o) s = Some d ->
  S (List.length (remove_first o s)) = List.length s.
Proof.
  induction s as [|x s IH]; simpl; [discriminate|].
  destruct (has_id o x); [reflexivity|]. simpl. intros H. f_equal. auto.
Qed.

Lemma replace_first_ids o d' (s : store) :
  _id d' = Generated o -> ids (replace_first o d' s) = ids s.
Proof.
  unfold ids. intros E. induction s as [|x s IH]; simpl; [reflexivity|].
  destruct (has_id o x) eqn:H; simpl.
  - apply MemFacts.has_id_true in H. congruence.
  - now rewrite IH.
Qed.

Lemma replace_first_same o d (s : store) :
  List.find (has_id o) s = Some d -> replace_first o d s = s.
Proof.
  induction s as [|x s IH]; simpl; [discriminate|].
  destruct (has_id o x).
  - now inversion 1.
  - intros H. f_equal. auto.
Qed.

Lemma apply_set_twice u d : apply_set u (apply_set u d) = apply_set u d.
Proof. reflexivity. Qed.

Lemma ids_appended i f (s : store) :
  ids (s ++ [mkDocument i f]) = (ids s ++ [i])%list.
Proof. unfold ids. now rewrite map_app. Qed.

Lemma insert_fresh g b (s : store) :
  ~ In (assigned_id g b) (ids s) ->
  mem_insertOne g b s
  = (Ok {| insertedId := assigned_id g b |},
     (s ++ [mkDocument (assigned_id g b) (fields b)])%list).
Proof.
  intros F. unfold mem_insertOne.
  now rewrite MemFacts.existsb_absent.
Qed.

End StoreFacts.

(** ** Creation, lookup, deletion and update composed *)

(** X1: the list route answers with all stored records; after a creation
    under an identifier not yet stored (the generated one, or the body's
    own), its list holds the earlier records and the new one, and nothing
    else. *)
Theorem list_after_create (s : Mem.store) (generated : ObjectId)
  (finance : request_body) :
  ~ In (Mem.assigned_id generated finance) (ids s) ->
  route (get_finance Mem.collection) s
    = (Sent (mkResponse 200 (BDocuments s)), s)
  /\ exists s' l,
      snd (route (post_finance Mem.collection generated finance) s) = s'
      /\ route (get_finance Mem.collection) s'
         = (Sent (mkResponse 200 (BDocuments l)), s')
      /\ List.length l = S (List.length s)
      /\ forall d,
          In d l <->
          In d s
          \/ d = mkDocument (Mem.assigned_id generated finance)
                            (fields finance).
Proof.
  intros F. split; [reflexivity|].
  set (new := mkDocument (Mem.assigned_id generated finance)
                         (fields finance)).
  exists (s ++ [new])%list, (s ++ [new])%list.
  split; [|split; [reflexivity|split]].
  - unfold route, post_finance, bind; simpl.
    now rewrite StoreFacts.insert_fresh.
  - rewrite length_app. simpl. lia.
  - intros d. rewrite in_app_iff. simpl. intuition.
Qed.

(** X2: in a store whose identifiers are distinct, every stored record
    with a generated identifier is the answer of the lookup route for the
    text form of that identifier. *)
Theorem get_stored_record (s : Mem.store) (d : document) (o : ObjectId) :
  NoDup (ids s) ->
  In d s ->
  _id d = Generated o ->
  is_ObjectId o = true ->
  route (get_finance_id Mem.collection (toHexString o)) s
  = (Sent (mkResponse 200 (BDocument d)), s).
Proof.
  intros N H E L.
  unfold route, get_finance_id, bind, construct_ObjectId.
  rewrite new_ObjectId_toHexString by exact L. simpl.
  unfold Mem.mem_findOne. now rewrite (StoreFacts.find_unique o d).
Qed.

(** X3: deleting a stored record (identifiers distinct) answers with a count
    of one and removes that record and no other; a lookup of the same id
    then answers [null], and a second deletion answers with a count of zero
    and changes nothing. *)
Theorem delete_stored_record (s : Mem.store) (id : string) (o : ObjectId)
  (d : document) :
  NoDup (ids s) ->
  In d s ->
  new_ObjectId id = Some o ->
  _id d = Generated o ->
  exists s',
    route (delete_finance_id Mem.collection id) s
      = (Sent (mkResponse 200 (BDeleted {| deletedCount := 1 |})), s')
    /\ ~ In (_id d) (ids s')
    /\ S (List.length s') = List.length s
    /\ (forall d', In d' s' <-> In d' s /\ d' <> d)
    /\ route (get_finance_id Mem.collection id) s'
       = (Sent (mkResponse 200 BNull), s')
    /\ route (delete_finance_id Mem.collection id) s'
       = (Sent (mkResponse 200 (BDeleted {| deletedCount := 0 |})), s').
Proof.
  intros N H E Eo.
  pose proof (StoreFacts.find_unique o d s N H Eo) as Hf.
  pose proof (StoreFacts.remove_first_gone o s N) as G.
  exists (Mem.remove_first o s). rewrite Eo.
  split; [|split; [exact G|split; [|split; [|split]]]].
  - unfold route, delete_finance_id, bind, construct_ObjectId.
    rewrite E. simpl. unfold Mem.mem_deleteOne. now rewrite Hf.
  - now apply StoreFacts.remove_first_length with (d := d).
  - intros d'. split.
    + intros H'. split; [now apply StoreFacts.remove_first_In in H'|].
      intros ->. apply G. rewrite <- Eo. unfold ids. now apply in_map.
    + intros [H' Hn]. apply StoreFacts.remove_first_keeps; [exact H'|].
      intros Eid. apply Hn.
      pose proof (StoreFacts.find_unique o d' s N H' Eid) as Hf'.
      congruence.
  - unfold route, get_finance_id, bind, construct_ObjectId.
    rewrite E. simpl. unfold Mem.mem_findOne.
    now rewrite MemFacts.find_absent.
  - unfold route, delete_finance_id, bind, construct_ObjectId.
    rewrite E. simpl. unfold Mem.mem_deleteOne.
    now rewrite MemFacts.find_absent.
Qed.

(** X4: the update route never creates a record: for a well-formed id that
    no stored record has, it answers with matched and modified counts of
    zero and leaves the store as it was. *)
Theorem patch_absent (s : Mem.store) (financeId : string) (o : ObjectId)
  (data : finance) :
  new_ObjectId financeId = Some o ->
  ~ In (Generated o) (ids s) ->
  route (patch_finance_id Mem.collection financeId data) s
  = (Sent (mkResponse 200
             (BUpdated {| matchedCount := 0; modifiedCount := 0 |})), s).
Proof.
  intros E A.
  unfold route, patch_finance_id, bind, construct_ObjectId.
  rewrite E. simpl. unfold Mem.mem_updateOne.
  now rewrite MemFacts.find_absent.
Qed.

(** X5: the update route is idempotent: the same patch sent a second time
    matches as before, modifies nothing and leaves the store as the first
    update left it. *)
Theorem patch_twice (s : Mem.store) (financeId : string) (o : ObjectId)
  (data : finance) :
  new_ObjectId financeId = Some o ->
  exists ack s1,
    route (patch_finance_id Mem.collection financeId data) s
      = (Sent (mkResponse 200 (BUpdated ack)), s1)
    /\ route (patch_finance_id Mem.collection financeId data) s1
       = (Sent (mkResponse 200
                  (BUpdated {| matchedCount := matchedCount ack;
                               modifiedCount := 0 |})), s1).
Proof.
  intros E.
  unfold route, patch_finance_id, bind, construct_ObjectId.
  rewrite E. simpl. unfold Mem.mem_updateOne.
  destruct (List.find (Mem.has_id o) s) as [d|] eqn:Hf.
  - eexists _, _. split; [reflexivity|].
    destruct (StoreFacts.find_In o d s Hf) as [_ Eid].
    set (u := mkSet _ _ _ _ _ _).
    assert (Hf1 : List.find (Mem.has_id o)
                    (Mem.replace_first o (Mem.apply_set u d) s)
                  = Some (Mem.apply_set u d))
      by (apply MemFacts.find_replace_same with (d := d); assumption).
    rewrite Hf1. rewrite StoreFacts.apply_set_twice.
    rewrite (StoreFacts.replace_first_same _ _ _ Hf1).
    match goal with
    | |- context [finance_eq_dec ?a ?b] =>
        destruct (finance_eq_dec a b); [reflexivity|congruence]
    end.
  - eexists _, _. split; [reflexivity|]. now rewrite Hf.
Qed.

(** X6: for an id that is no identifier, the deletion route and the update
    route fail in [new ObjectId] before the collection is asked, whatever
    the collection is: nothing is sent and the state is unchanged. *)
Theorem delete_patch_malformed_id (St : Type) (c : Collection St)
  (id : string) (s : St) :
  new_ObjectId id = None ->
  route (delete_finance_id c id) s = (Uncaught BSONError, s)
  /\ forall data, route (patch_finance_id c id data) s
                  = (Uncaught BSONError, s).
Proof.
  intros E. split; [|intros data];
    unfold route, delete_finance_id, patch_finance_id, bind,
           construct_ObjectId; now rewrite E.
Qed.

(** X7: distinct identifiers are an invariant of the store: whatever the
    inputs, creation, deletion and update leave the identifiers distinct,
    and an update leaves the list of identifiers as it was. *)
Theorem ids_stay_distinct (s : Mem.store) :
  NoDup (ids s) ->
  (forall generated finance,
      NoDup (ids (snd (route (post_finance Mem.collection generated finance)
                         s))))
  /\ (forall id,
         NoDup (ids (snd (route (delete_finance_id Mem.collection id) s))))
  /\ (forall id data,
         ids (snd (route (patch_finance_id Mem.collection id data) s))
         = ids s).
Proof.
  intros N. split; [|split].
  - intros g f. unfold route, post_finance, bind; simpl.
    unfold Mem.mem_insertOne.
    destruct (existsb (Mem.has_doc_id (Mem.assigned_id g f)) s) eqn:E;
      simpl; [exact N|].
    rewrite StoreFacts.ids_appended.
    apply NoDup_app; [exact N|repeat constructor; easy|].
    intros x Hx [<-|[]].
    unfold ids in Hx. apply in_map_iff in Hx. destruct Hx as [d [Ed Hd]].
    assert (existsb (Mem.has_doc_id (Mem.assigned_id g f)) s = true).
    { apply existsb_exists. exists d. split; [exact Hd|].
      now apply MemFacts.has_doc_id_true. }
    congruence.
  - intros id. unfold route, delete_finance_id, bind, construct_ObjectId.
    destruct (new_ObjectId id) as [o|]; simpl; [|exact N].
    unfold Mem.mem_deleteOne.
    destruct (List.find (Mem.has_id o) s); simpl; [|exact N].
    now apply StoreFacts.remove_first_NoDup.
  - intros id data.
    unfold route, patch_finance_id, bind, construct_ObjectId.
    destruct (new_ObjectId id) as [o|]; simpl; [|reflexivity].
    unfold Mem.mem_updateOne.
    destruct (List.find (Mem.has_id o) s) as [d|] eqn:Hf; simpl;
      [|reflexivity].
    apply StoreFacts.replace_first_ids. simpl.
    now destruct (StoreFacts.find_In o d s Hf).
Qed.

(** X8: whatever the collection, the five routes on records answer with
    status 200 or not at all: when the driver's call throws, the exception
    leaves the callback and nothing is sent. *)
Theorem record_routes_send_only_200 (St : Type) (c : Collection St) (s : St) :
  (forall g f,
      match insertOne c g f s with
      | (Ok x, s') =>
          route (post_finance c g f) s
          = (Sent (mkResponse 200 (BInserted x)), s')
      | (Throw e, s') => route (post_finance c g f) s = (Uncaught e, s')
      end)
  /\ (forall e s', find c s = (Throw e, s') ->
        route (get_finance c) s = (Uncaught e, s'))
  /\ (forall id o e s', new_ObjectId id = Some o ->
        findOne c o s = (Throw e, s') ->
        route (get_finance_id c id) s = (Uncaught e, s'))
  /\ (forall id o e s', new_ObjectId id = Some o ->
        deleteOne c o s = (Throw e, s') ->
        route (delete_finance_id c id) s = (Uncaught e, s'))
  /\ (forall id o data e s', new_ObjectId id = Some o ->
        updateOne c o (mkSet (title data) (amount data) (description data)
                             (date data) (category data) (type data)) s
        = (Throw e, s') ->
        route (patch_finance_id c id data) s = (Uncaught e, s'))
  /\ (forall r s',
        (exists g f, route (post_finance c g f) s = (Sent r, s'))
        \/ route (get_finance c) s = (Sent r, s')
        \/ (exists id, route (get_finance_id c id) s = (Sent r, s'))
        \/ (exists id, route (delete_finance_id c id) s = (Sent r, s'))
        \/ (exists id data,
               route (patch_finance_id c id data) s = (Sent r, s')) ->
        status r = 200).
Proof.
  split; [|split; [|split; [|split; [|split]]]].
  - intros g f. unfold route, post_finance, bind.
    destruct (insertOne c g f s) as [[x|e] s']; reflexivity.
  - intros e s' H. unfold route, get_finance, bind. now rewrite H.
  - intros id o e s' E H.
    unfold route, get_finance_id, bind, construct_ObjectId.
    rewrite E. simpl. now rewrite H.
  - intros id o e s' E H.
    unfold route, delete_finance_id, bind, construct_ObjectId.
    rewrite E. simpl. now rewrite H.
  - intros id o data e s' E H.
    unfold route, patch_finance_id, bind, construct_ObjectId.
    rewrite E. simpl. now rewrite H.
  - intros r s' H.
    destruct H as [[g [f H]]|[H|[[id H]|[[id H]|[id [data H]]]]]];
      revert H;
      unfold route, post_finance, get_finance, get_finance_id,
             delete_finance_id, patch_finance_id, bind, construct_ObjectId.
    + destruct (insertOne c g f s) as [[x|e] s1]; simpl; intros H;
        inversion H; reflexivity.
    + destruct (find c s) as [[x|e] s1]; simpl; intros H;
        inversion H; reflexivity.
    + destruct (new_ObjectId id) as [o|]; simpl; [|discriminate].
      destruct (findOne c o s) as [[x|e] s1]; simpl; intros H;
        inversion H; reflexivity.
    + destruct (new_ObjectId id) as [o|]; simpl; [|discriminate].
      destruct (deleteOne c o s) as [[x|e] s1]; simpl; intros H;
        inversion H; reflexivity.
    + destruct (new_ObjectId id) as [o|]; simpl; [|discriminate].
      destruct (updateOne c o _ s) as [[x|e] s1]; simpl; intros H;
        inversion H; reflexivity.
Qed.

(** ** More on the statistics *)

Section AcceptedDates.
Variable parse_date : string -> option ISODate.

Lemma dateFromString_accepted d :
  dateFromString parse_date (date (doc d)) =
  if date_accepted parse_date d then Ok (parsed parse_date d)
  else Throw ConversionFailure.
Proof.
  unfold dateFromString, date_accepted, parsed.
  destruct (date (doc d)) as [[| | |str]|]; try reflexivity.
  destruct (parse_date str); reflexivity.
Qed.

Lemma addFields_accepted ds :
  addFields_parsedDate parse_date ds =
  if forallb (date_accepted parse_date) ds
  then Ok (map (with_parsed parse_date) ds)
  else Throw ConversionFailure.
Proof.
  induction ds as [|d ds IH]; simpl; [reflexivity|].
  rewrite dateFromString_accepted, IH.
  destruct (date_accepted parse_date d); simpl; [|reflexivity].
  destruct (forallb (date_accepted parse_date) ds); reflexivity.
Qed.

Lemma monthlyStats_accepted ds ms :
  monthlyStats_facet parse_date ds = Ok ms ->
  forallb (date_accepted parse_date) ds = true.
Proof.
  unfold monthlyStats_facet. rewrite addFields_accepted.
  destruct (forallb (date_accepted parse_date) ds); [reflexivity|].
  discriminate.
Qed.

Lemma in_month_null d :
  date_accepted parse_date d = true ->
  in_month parse_date None d = no_date d.
Proof.
  unfold date_accepted, in_month, no_date, parsed.
  destruct (date (doc d)) as [[| | |str]|]; try reflexivity;
    try discriminate.
  destruct (parse_date str); [reflexivity|discriminate].
Qed.
End AcceptedDates.

Lemma sorted_null_first (k : month_id) (ks : list month_id) :
  StronglySorted month_before (k :: ks) -> In None (k :: ks) -> k = None.
Proof.
  intros S [H|H]; [exact H|].
  apply StronglySorted_inv in S. destruct S as [_ F].
  rewrite Forall_forall in F. specialize (F None H).
  destruct k as [[y m]|]; [destruct F|reflexivity].
Qed.

Lemma sorted_null_only_first (ks : list month_id) :
  StronglySorted month_before (None :: ks) -> ~ In None ks.
Proof.
  intros S H. apply StronglySorted_inv in S. destruct S as [_ F].
  rewrite Forall_forall in F. exact (F None H).
Qed.

(** X9: [/finance-stats] on the store in memory answers with the statistics
    exactly when there is a record and every record's [date] is absent,
    [null] or a string that parses; in every other case it answers with
    status 500 and the message of the route. *)
Theorem finance_stats_answers (parse_date : string -> option ISODate)
  (ds : Mem.store) :
  ((exists r,
       fst (route (get_finance_stats Mem.collection parse_date) ds)
       = Sent (mkResponse 200 (BFinanceStats r)))
   <-> ds <> [] /\ forallb (date_accepted parse_date) ds = true)
  /\ (fst (route (get_finance_stats Mem.collection parse_date) ds)
      = Sent (mkResponse 500 (BError "Error fetching finance stats"))
      <-> ds = [] \/ forallb (date_accepted parse_date) ds = false).
Proof.
  rewrite finance_stats_run. unfold monthlyStats_facet.
  rewrite addFields_accepted.
  destruct (forallb (date_accepted parse_date) ds); destruct ds as [|d ds];
    simpl; (split; split).
  all: try (intros [r H]; discriminate H).
  all: try (intros [H _]; congruence).
  all: try (intros [H|H]; congruence).
  all: try discriminate.
  all: try (intros _; now left).
  all: try (intros _; now right).
  all: try reflexivity.
  - intros _. split; [discriminate|reflexivity].
  - intros _. eauto.
Qed.

(** X10: a record without a date is not left out of the months: when
    [/finance-stats] answers, the records whose [date] is absent or [null]
    make up the first month row, whose year and month are [null], and its
    totals are their conditional sums; no other row has a [null] month. *)
Theorem no_date_row_first (parse_date : string -> option ISODate)
  (ds : Mem.store) (d : document) (st : Z) (r : stats_response) :
  fst (route (get_finance_stats Mem.collection parse_date) ds)
  = Sent (mkResponse st (BFinanceStats r)) ->
  In d ds ->
  no_date d = true ->
  exists row rest,
    r_monthlyStats r = (None, row) :: rest
    /\ ~ In None (map fst rest)
    /\ sumExpense row =
       amount_sum (filter (fun x => type_is "expense" x && no_date x) ds)
    /\ sumIncome row =
       amount_sum (filter (fun x => type_is "income" x && no_date x) ds).
Proof.
  intros H Hd Hn. apply finance_stats_sent in H.
  destruct H as [_ [ms [Hms ->]]]. cbn [r_monthlyStats stats_of].
  pose proof (monthlyStats_sorted parse_date ds ms Hms) as S.
  pose proof (monthlyStats_keys parse_date ds ms d Hms Hd) as K.
  assert (P : parsed parse_date d = None).
  { unfold no_date in Hn. unfold parsed.
    destruct (date (doc d)) as [[| | |str]|]; try reflexivity;
      discriminate. }
  rewrite P in K. simpl in K.
  destruct ms as [|[k row] rest]; [destruct K|].
  simpl in S, K. pose proof (sorted_null_first k _ S K) as ->.
  exists row, rest. split; [reflexivity|].
  split; [exact (sorted_null_only_first _ S)|].
  destruct (monthlyStats_rows parse_date ds _ None row Hms (or_introl eq_refl))
    as [_ [He Hi]].
  pose proof (monthlyStats_accepted parse_date ds _ Hms) as A.
  rewrite forallb_forall in A.
  rewrite He, Hi. split; f_equal; apply filter_ext_in; intros x Hx;
    now rewrite in_month_null by auto.
Qed.

(** ** The rows of a grouping add up to the whole *)

Lemma Zsum_perm l l' : Permutation l l' -> Zsum l = Zsum l'.
Proof.
  unfold Zsum. induction 1 as [|x l l' P IH|x y l|l l' l'' P1 IH1 P2 IH2];
    cbn [fold_right]; lia.
Qed.

Lemma column_sum_perm {K A} (col : A -> Z) (rows rows' : list (K * A)) :
  Permutation rows rows' -> column_sum col rows = column_sum col rows'.
Proof.
  intros P. unfold column_sum. apply Zsum_perm. now apply Permutation_map.
Qed.

Section GroupSum.
Context {D K A : Type}.
Variable K_eq_dec : forall x y : K, {x = y} + {x <> y}.
Variable key : D -> K.
Variable init : A.
Variable step : D -> A -> A.
Variable col : A -> Z.      (* a column of the rows *)
Variable share : D -> Z.    (* what one document adds to it *)
Hypothesis col_init : col init = 0.
Hypothesis col_step : forall d a, col (step d a) = col a + share d.

Lemma column_sum_upsert k d gs :
  column_sum col (upsert K_eq_dec init step k d gs)
  = column_sum col gs + share d.
Proof.
  unfold column_sum, Zsum.
  induction gs as [|[k0 a] gs IH]; simpl.
  - rewrite col_step, col_init. lia.
  - destruct (K_eq_dec k k0); simpl.
    + rewrite col_step. lia.
    + rewrite IH. lia.
Qed.

Lemma column_sum_group ds :
  column_sum col (group K_eq_dec key init step ds) = Zsum (map share ds).
Proof.
  unfold group.
  assert (G : forall gs,
             column_sum col
               (fold_left (fun gs d => upsert K_eq_dec init step (key d) d gs)
                          ds gs)
             = column_sum col gs + Zsum (map share ds)).
  { induction ds as [|d ds IH]; intros gs; simpl.
    - unfold Zsum; simpl. lia.
    - rewrite IH, column_sum_upsert. unfold Zsum; simpl. lia. }
  rewrite G. unfold column_sum, Zsum; simpl. lia.
Qed.
End GroupSum.

Lemma categoryStats_column t (col : sums -> Z) ds :
  (forall d a, col (sums_step d a) = col a + cond_amount t d) ->
  col (mkSums 0 0) = 0 ->
  column_sum col (categoryStats_facet ds)
  = amount_sum (filter (type_is t) ds).
Proof.
  intros Hs H0. unfold categoryStats_facet.
  rewrite (column_sum_group value_eq_dec _ _ _ col (cond_amount t) H0 Hs).
  apply Zsum_cond_amount.
Qed.

Lemma monthlyStats_column parse_date t (col : sums -> Z) ds ms :
  (forall d a, col (sums_step d a) = col a + cond_amount t d) ->
  col (mkSums 0 0) = 0 ->
  monthlyStats_facet parse_date ds = Ok ms ->
  column_sum col ms = amount_sum (filter (type_is t) ds).
Proof.
  intros Hs H0 H. apply monthlyStats_Ok in H. subst ms.
  rewrite (column_sum_perm col _ _ (sort_perm _ _)).
  rewrite (column_sum_group month_id_eq_dec _ _ _ col
             (fun dp : document * option ISODate => cond_amount t (fst dp))
             H0 (fun dp a => Hs (fst dp) a)).
  rewrite map_map. simpl. apply Zsum_cond_amount.
Qed.

Lemma category_stats_run (ds : Mem.store) :
  route (get_category_stats Mem.collection) ds =
  match category_pipeline "expense" ds, category_pipeline "income" ds with
  | Ok e, Ok i => (Sent (mkResponse 200 (BCategoryStats e i)), ds)
  | _, _ =>
      (Sent (mkResponse 500 (BError "Error fetching category stats")), ds)
  end.
Proof. reflexivity. Qed.

(** X11: for amounts that add without rounding, the rows of an answer of
    [/finance-stats] add up to the global totals: the [totalExpense] of
    the category rows, and of the month rows, sum to the global
    [totalExpense], and likewise for [totalIncome]. *)
Theorem rows_add_up_to_totals (parse_date : string -> option ISODate)
  (ds : Mem.store) (st : Z) (r : stats_response) :
  exact_amounts ds ->
  fst (route (get_finance_stats Mem.collection parse_date) ds)
  = Sent (mkResponse st (BFinanceStats r)) ->
  column_sum sumExpense (r_categoryStats r) = r_totalExpense r
  /\ column_sum sumIncome (r_categoryStats r) = r_totalIncome r
  /\ column_sum sumExpense (r_monthlyStats r) = r_totalExpense r
  /\ column_sum sumIncome (r_monthlyStats r) = r_totalIncome r.
Proof.
  intros _ H. apply finance_stats_sent in H.
  destruct H as [_ [ms [Hms ->]]].
  cbn [r_categoryStats r_monthlyStats r_totalExpense r_totalIncome stats_of].
  repeat split.
  - now apply categoryStats_column.
  - now apply categoryStats_column.
  - now apply monthlyStats_column with (parse_date := parse_date).
  - now apply monthlyStats_column with (parse_date := parse_date).
Qed.

(** X13: in an answer of [/finance-stats] the category rows are one per
    category: no category has two rows, every record's category (the
    [null] one for a record that has none) has a row, and every row is the
    category of some record. *)
Theorem category_rows_one_per_category
  (parse_date : string -> option ISODate) (ds : Mem.store) (st : Z)
  (r : stats_response) :
  fst (route (get_finance_stats Mem.collection parse_date) ds)
  = Sent (mkResponse st (BFinanceStats r)) ->
  NoDup (map fst (r_categoryStats r))
  /\ forall c,
      In c (map fst (r_categoryStats r))
      <-> exists d, In d ds /\ field_or_null (category (doc d)) = c.
Proof.
  intros H. apply finance_stats_sent in H.
  destruct H as [_ [ms [_ ->]]]. cbn [r_categoryStats stats_of].
  unfold categoryStats_facet. split; [apply NoDup_group|].
  intros c. split.
  - intros Hc. apply in_map_iff in Hc. destruct Hc as [[k row] [E Hr]].
    simpl in E. subst k. apply group_row in Hr. destruct Hr as [Hne _].
    apply filter_nonempty in Hne. destruct Hne as [d [Hd Hk]].
    exists d. split; [exact Hd|].
    now destruct (value_eq_dec (field_or_null (category (doc d))) c).
  - intros [d [Hd <-]].
    now apply (group_key value_eq_dec
                 (fun d => field_or_null (category (doc d))) _ _ d).
Qed.

(** ** The statistics do not depend on the order of the records *)

Lemma forallb_perm {A} (p : A -> bool) l l' :
  Permutation l l' -> forallb p l = forallb p l'.
Proof.
  induction 1 as [|x l l' P IH|x y l|l l' l'' P1 IH1 P2 IH2]; simpl;
    try congruence.
  destruct (p x), (p y); reflexivity.
Qed.

Lemma amount_sum_filter_perm (p : document -> bool) l l' :
  Permutation l l' -> amount_sum (filter p l) = amount_sum (filter p l').
Proof.
  unfold amount_sum, Zsum.
  induction 1 as [|x l l' P IH|x y l|l l' l'' P1 IH1 P2 IH2]; simpl;
    try congruence.
  - destruct (p x); simpl; lia.
  - destruct (p x), (p y); simpl; lia.
Qed.

Lemma filter_nonempty_perm {A} (p : A -> bool) l l' :
  Permutation l l' -> filter p l <> [] -> filter p l' <> [].
Proof.
  intros P H. apply filter_nonempty in H. destruct H as [x [Hx Hp]].
  assert (I : In x (filter p l')).
  { apply filter_In. split; [|exact Hp]. now apply (Permutation_in _ P). }
  intros E. now rewrite E in I.
Qed.

Lemma group_has_row {D K A} (K_eq_dec : forall x y : K, {x = y} + {x <> y})
  (key : D -> K) (init : A) (step : D -> A -> A) k ds :
  members K_eq_dec key k ds <> [] ->
  In (k, accumulate step (members K_eq_dec key k ds) init)
     (group K_eq_dec key init step ds).
Proof.
  intros H. apply (assoc_In K_eq_dec). rewrite assoc_group.
  destruct (members K_eq_dec key k ds); [congruence|reflexivity].
Qed.

Lemma categoryStats_row_iff c row ds :
  In (c, row) (categoryStats_facet ds) <->
  filter (category_is c) ds <> []
  /\ row = mkSums
       (amount_sum (filter (fun d => type_is "expense" d && category_is c d)
                           ds))
       (amount_sum (filter (fun d => type_is "income" d && category_is c d)
                           ds)).
Proof.
  split.
  - intros H. destruct (categoryStats_rows c row ds H) as [He Hi].
    apply group_row in H. destruct H as [Hne _].
    split; [exact Hne|]. destruct row; simpl in *. congruence.
  - intros [Hne ->]. unfold categoryStats_facet.
    pose proof (group_has_row value_eq_dec
                  (fun d => field_or_null (category (doc d)))
                  (mkSums 0 0) sums_step c ds Hne) as H.
    rewrite accumulate_sums, !Zsum_cond_amount in H.
    unfold members in H. rewrite !filter_filter in H. exact H.
Qed.

Lemma monthlyStats_row_iff parse_date ds ms k row :
  monthlyStats_facet parse_date ds = Ok ms ->
  (In (k, row) ms <->
   filter (in_month parse_date k) ds <> []
   /\ row = mkSums
        (amount_sum (filter (fun d => type_is "expense" d
                                      && in_month parse_date k d) ds))
        (amount_sum (filter (fun d => type_is "income" d
                                      && in_month parse_date k d) ds))).
Proof.
  intros Hms. split.
  - intros H.
    destruct (monthlyStats_rows parse_date ds ms k row Hms H)
      as [Hne [He Hi]].
    split; [exact Hne|]. destruct row; simpl in *. congruence.
  - intros [Hne ->]. apply monthlyStats_Ok in Hms. subst ms.
    apply (Permutation_in _ (Permutation_sym (sort_perm _ _))).
    assert (Hm : members month_id_eq_dec
                   (fun dp : document * option ISODate => month_of (snd dp))
                   k (map (with_parsed parse_date) ds) <> []).
    { rewrite members_with_parsed. intros E. apply map_eq_nil in E.
      contradiction. }
    pose proof (group_has_row month_id_eq_dec _ (mkSums 0 0)
                  (fun dp : document * option ISODate => sums_step (fst dp))
                  k _ Hm) as H.
    rewrite members_with_parsed in H.
    rewrite (accumulate_fst sums_step) in H by reflexivity.
    rewrite accumulate_sums, !Zsum_cond_amount, !filter_filter in H.
    exact H.
Qed.

Lemma month_before_irrefl k : ~ month_before k k.
Proof. destruct k as [[y m]|]; simpl; lia. Qed.

Lemma month_before_asym a b : month_before a b -> month_before b a -> False.
Proof.
  destruct a as [[y1 m1]|], b as [[y2 m2]|]; simpl; try easy. lia.
Qed.

Lemma sorted_same_rows {A} (l : list (month_id * A)) : forall l',
  StronglySorted month_before (map fst l) ->
  StronglySorted month_before (map fst l') ->
  (forall x, In x l <-> In x l') ->
  l = l'.
Proof.
  induction l as [|a l IH]; intros [|b l'] S S' E.
  - reflexivity.
  - exfalso. apply (proj2 (E b)). now left.
  - exfalso. apply (proj1 (E a)). now left.
  - simpl in S, S'.
    apply StronglySorted_inv in S. destruct S as [S F].
    apply StronglySorted_inv in S'. destruct S' as [S' F'].
    rewrite Forall_forall in F, F'.
    assert (Eab : a = b).
    { destruct (proj1 (E a) (or_introl eq_refl)) as [Hb|Hb]; [auto|].
      destruct (proj2 (E b) (or_introl eq_refl)) as [Ha|Ha]; [auto|].
      exfalso. apply (month_before_asym (fst a) (fst b)).
      - apply F. now apply in_map.
      - apply F'. now apply in_map. }
    subst b. f_equal. apply IH; [exact S|exact S'|].
    intros x. split; intros Hx.
    + destruct (proj1 (E x) (or_intror Hx)) as [<-|H]; [|exact H].
      exfalso. apply (month_before_irrefl (fst a)). apply F.
      now apply in_map.
    + destruct (proj2 (E x) (or_intror Hx)) as [<-|H]; [|exact H].
      exfalso. apply (month_before_irrefl (fst a)). apply F'.
      now apply in_map.
Qed.

Lemma NoDup_rows {K A} (rows : list (K * A)) :
  NoDup (map fst rows) -> NoDup rows.
Proof. apply NoDup_map_inv. Qed.

Lemma finance_stats_status parse_date ds st r :
  fst (route (get_finance_stats Mem.collection parse_date) ds)
  = Sent (mkResponse st (BFinanceStats r)) -> st = 200.
Proof.
  rewrite finance_stats_run.
  destruct (monthlyStats_facet parse_date ds) as [ms|e];
    [destruct ds|]; simpl; intros H; inversion H; reflexivity.
Qed.

Lemma sorted_same_keys (l : list month_id) : forall l',
  StronglySorted month_before l ->
  StronglySorted month_before l' ->
  (forall k, In k l <-> In k l') ->
  l = l'.
Proof.
  induction l as [|a l IH]; intros [|b l'] S S' E.
  - reflexivity.
  - exfalso. apply (proj2 (E b)). now left.
  - exfalso. apply (proj1 (E a)). now left.
  - apply StronglySorted_inv in S. destruct S as [S F].
    apply StronglySorted_inv in S'. destruct S' as [S' F'].
    rewrite Forall_forall in F, F'.
    assert (Eab : a = b).
    { destruct (proj1 (E a) (or_introl eq_refl)) as [Hb|Hb]; [auto|].
      destruct (proj2 (E b) (or_introl eq_refl)) as [Ha|Ha]; [auto|].
      exfalso. apply (month_before_asym a b); auto. }
    subst b. f_equal. apply IH; [exact S|exact S'|].
    intros x. split; intros Hx.
    + destruct (proj1 (E x) (or_intror Hx)) as [<-|H]; [|exact H].
      exfalso. apply (month_before_irrefl a). auto.
    + destruct (proj2 (E x) (or_intror Hx)) as [<-|H]; [|exact H].
      exfalso. apply (month_before_irrefl a). auto.
Qed.

Lemma monthly_key_iff parse_date ds ms k :
  monthlyStats_facet parse_date ds = Ok ms ->
  (In k (map fst ms) <-> filter (in_month parse_date k) ds <> []).
Proof.
  intros Hms. split.
  - intros H. apply in_map_iff in H. destruct H as [[k' row] [E H]].
    simpl in E. subst k'.
    now destruct (monthlyStats_rows parse_date ds ms k row Hms H).
  - intros H. apply filter_nonempty in H. destruct H as [d [Hd Hk]].
    unfold in_month in Hk.
    destruct (month_id_eq_dec (month_of (parsed parse_date d)) k)
      as [<-|]; [|discriminate].
    now apply monthlyStats_keys with (ds := ds).
Qed.

Lemma category_key_iff ds c :
  In c (map fst (categoryStats_facet ds))
  <-> filter (category_is c) ds <> [].
Proof.
  unfold categoryStats_facet. split.
  - intros H. apply in_map_iff in H. destruct H as [[k row] [E H]].
    simpl in E. subst k. now apply group_row in H.
  - intros H. apply filter_nonempty in H. destruct H as [d [Hd Hk]].
    unfold category_is in Hk.
    destruct (value_eq_dec (field_or_null (category (doc d))) c)
      as [<-|]; [|discriminate].
    now apply (group_key value_eq_dec
                 (fun d => field_or_null (category (doc d))) _ _ d).
Qed.

(** X14: what [/finance-stats] answers does not depend on the order in
    which the records are stored, as far as no sum is concerned: for two
    stores holding the same records, the route answers with statistics on
    both or fails on both with the same response; [totalTransactions] is
    the same, the month rows have the same years and months in the same
    order, and the category rows have the same categories. *)
Theorem finance_stats_rows_order_independent
  (parse_date : string -> option ISODate) (ds ds' : Mem.store) :
  Permutation ds ds' ->
  (forall st r,
      fst (route (get_finance_stats Mem.collection parse_date) ds)
      = Sent (mkResponse st (BFinanceStats r)) ->
      exists r',
        fst (route (get_finance_stats Mem.collection parse_date) ds')
        = Sent (mkResponse st (BFinanceStats r'))
        /\ r_totalTransactions r' = r_totalTransactions r
        /\ map fst (r_monthlyStats r') = map fst (r_monthlyStats r)
        /\ Permutation (map fst (r_categoryStats r))
                       (map fst (r_categoryStats r')))
  /\ (forall st msg,
         fst (route (get_finance_stats Mem.collection parse_date) ds)
         = Sent (mkResponse st (BError msg)) ->
         fst (route (get_finance_stats Mem.collection parse_date) ds')
         = Sent (mkResponse st (BError msg))).
Proof.
  intros P. split.
  - intros st r H.
    pose proof (finance_stats_status _ _ _ _ H) as ->.
    apply finance_stats_sent in H. destruct H as [Hne [ms [Hms ->]]].
    pose proof (monthlyStats_accepted _ _ _ Hms) as A.
    rewrite (forallb_perm _ _ _ P) in A.
    assert (Hms' : exists ms', monthlyStats_facet parse_date ds' = Ok ms').
    { unfold monthlyStats_facet. rewrite addFields_accepted, A. eauto. }
    destruct Hms' as [ms' Hms'].
    exists (stats_of ds' ms'). split.
    { rewrite finance_stats_run, Hms'.
      destruct ds' as [|d' ds']; [|reflexivity].
      apply Permutation_sym, Permutation_nil in P. contradiction. }
    cbn [r_totalTransactions r_monthlyStats r_categoryStats stats_of].
    rewrite <- (Permutation_length P).
    split; [reflexivity|]. split.
    + apply sorted_same_keys.
      * exact (monthlyStats_sorted _ _ _ Hms').
      * exact (monthlyStats_sorted _ _ _ Hms).
      * intros k.
        rewrite (monthly_key_iff _ _ _ k Hms), (monthly_key_iff _ _ _ k Hms').
        split.
        -- now apply (filter_nonempty_perm _ _ _ (Permutation_sym P)).
        -- now apply (filter_nonempty_perm _ _ _ P).
    + apply NoDup_Permutation.
      * apply NoDup_group.
      * apply NoDup_group.
      * intros c. rewrite !category_key_iff. split.
        -- now apply (filter_nonempty_perm _ _ _ P).
        -- now apply (filter_nonempty_perm _ _ _ (Permutation_sym P)).
  - intros st msg. rewrite !finance_stats_run. unfold monthlyStats_facet.
    rewrite !addFields_accepted, <- (forallb_perm _ _ _ P).
    destruct (forallb (date_accepted parse_date) ds).
    + destruct ds as [|d ds]; [|discriminate].
      apply Permutation_nil in P. now subst ds'.
    + destruct ds, ds'; exact (fun H => H).
Qed.

(** X18: for amounts that add without rounding, the sums of
    [/finance-stats] do not depend on the order in which the records are
    stored either: for two stores holding the same records, the totals and
    the month rows are equal and the category rows are the same rows (their
    order apart). *)
Theorem finance_stats_order_independent
  (parse_date : string -> option ISODate) (ds ds' : Mem.store) :
  Permutation ds ds' ->
  exact_amounts ds ->
  (forall st r,
      fst (route (get_finance_stats Mem.collection parse_date) ds)
      = Sent (mkResponse st (BFinanceStats r)) ->
      exists r',
        fst (route (get_finance_stats Mem.collection parse_date) ds')
        = Sent (mkResponse st (BFinanceStats r'))
        /\ r_totalExpense r' = r_totalExpense r
        /\ r_totalIncome r' = r_totalIncome r
        /\ r_totalTransactions r' = r_totalTransactions r
        /\ r_monthlyStats r' = r_monthlyStats r
        /\ Permutation (r_categoryStats r) (r_categoryStats r'))
  /\ (forall st msg,
         fst (route (get_finance_stats Mem.collection parse_date) ds)
         = Sent (mkResponse st (BError msg)) ->
         fst (route (get_finance_stats Mem.collection parse_date) ds')
         = Sent (mkResponse st (BError msg))).
Proof.
  intros P _. split.
  - intros st r H.
    pose proof (finance_stats_status _ _ _ _ H) as ->.
    apply finance_stats_sent in H. destruct H as [Hne [ms [Hms ->]]].
    pose proof (monthlyStats_accepted _ _ _ Hms) as A.
    rewrite (forallb_perm _ _ _ P) in A.
    assert (Hms' : exists ms', monthlyStats_facet parse_date ds' = Ok ms').
    { unfold monthlyStats_facet. rewrite addFields_accepted, A. eauto. }
    destruct Hms' as [ms' Hms'].
    exists (stats_of ds' ms'). split.
    { rewrite finance_stats_run, Hms'.
      destruct ds' as [|d' ds']; [|reflexivity].
      apply Permutation_sym, Permutation_nil in P. contradiction. }
    cbn [r_totalExpense r_totalIncome r_totalTransactions r_monthlyStats
         r_categoryStats stats_of].
    rewrite <- !(amount_sum_filter_perm _ _ _ P).
    rewrite <- (Permutation_length P).
    repeat split.
    + apply sorted_same_rows.
      * exact (monthlyStats_sorted _ _ _ Hms').
      * exact (monthlyStats_sorted _ _ _ Hms).
      * intros [k row].
        rewrite (monthlyStats_row_iff _ _ _ k row Hms).
        rewrite (monthlyStats_row_iff _ _ _ k row Hms').
        rewrite <- !(amount_sum_filter_perm _ _ _ P).
        split; intros [Hn E]; (split; [|exact E]).
        -- now apply (filter_nonempty_perm _ _ _ (Permutation_sym P)).
        -- now apply (filter_nonempty_perm _ _ _ P).
    + apply NoDup_Permutation.
      * apply NoDup_rows. apply NoDup_group.
      * apply NoDup_rows. apply NoDup_group.
      * intros [c row]. rewrite !categoryStats_row_iff.
        rewrite <- !(amount_sum_filter_perm _ _ _ P).
        split; intros [Hn E]; (split; [|exact E]).
        -- now apply (filter_nonempty_perm _ _ _ P).
        -- now apply (filter_nonempty_perm _ _ _ (Permutation_sym P)).
  - intros st msg. rewrite !finance_stats_run. unfold monthlyStats_facet.
    rewrite !addFields_accepted, <- (forallb_perm _ _ _ P).
    destruct (forallb (date_accepted parse_date) ds).
    + destruct ds as [|d ds]; [|discriminate].
      apply Permutation_nil in P. now subst ds'.
    + destruct ds, ds'; exact (fun H => H).
Qed.

(** ** Amounts that are no numbers, and statistics after a write *)

Lemma Zsum_app l l' : Zsum (l ++ l') = Zsum l + Zsum l'.
Proof.
  unfold Zsum. induction l as [|x l IH]; simpl; [reflexivity|].
  rewrite IH. lia.
Qed.

Lemma amount_sum_app l l' : amount_sum (l ++ l') = amount_sum l + amount_sum l'.
Proof. unfold amount_sum. now rewrite map_app, Zsum_app. Qed.

Lemma amount_sum_without (p : document -> bool) l1 x l2 :
  sum_operand (amount (doc x)) = 0 ->
  amount_sum (filter p (l1 ++ x :: l2)) = amount_sum (filter p (l1 ++ l2)).
Proof.
  intros H. rewrite !filter_app, !amount_sum_app. simpl.
  destruct (p x); [|reflexivity].
  change (amount_sum (x :: filter p l2))
    with (sum_operand (amount (doc x)) + amount_sum (filter p l2)).
  rewrite H. reflexivity.
Qed.

Lemma not_number_adds_nothing d :
  amount_is_number d = false -> sum_operand (amount (doc d)) = 0.
Proof.
  unfold amount_is_number, sum_operand.
  destruct (amount (doc d)) as [[| | |]|]; easy.
Qed.

Lemma category_pipeline_rows t ds rows c rk :
  category_pipeline t ds = Ok rows ->
  In (c, rk) rows ->
  categoryCount rk =
    Z.of_nat (List.length
                (filter (fun d => type_is t d && category_is c d) ds))
  /\ totalAmount rk =
    amount_sum (filter (fun d => type_is t d && category_is c d) ds).
Proof.
  unfold category_pipeline. intros E H. inversion E; subst. clear E.
  apply (Permutation_in _ (sort_perm _ _)) in H.
  apply group_row in H. destruct H as [_ ->].
  rewrite accumulate_ranking. simpl. unfold members, match_type.
  rewrite filter_filter.
  rewrite (filter_ext _ (fun d => type_is t d && category_is c d));
    [split; reflexivity|].
  intros x. apply andb_comm.
Qed.

(** X15: a record whose [amount] is no number (a string, a boolean, [null]
    or absent) adds nothing to any sum of either statistics route: the
    global totals, every category row and every month row of
    [/finance-stats] and every [totalAmount] of [/category-stats] are the
    sums over the other records alone.  The record is counted all the same:
    in [totalTransactions], and in the [categoryCount] of its category's
    row in the ranking of its type. *)
Theorem amount_not_a_number_adds_nothing
  (parse_date : string -> option ISODate) (ds1 ds2 : Mem.store)
  (x : document) :
  amount_is_number x = false ->
  (forall st r,
      fst (route (get_finance_stats Mem.collection parse_date)
             (ds1 ++ x :: ds2)%list)
      = Sent (mkResponse st (BFinanceStats r)) ->
      r_totalExpense r = amount_sum (filter (type_is "expense") (ds1 ++ ds2))
      /\ r_totalIncome r = amount_sum (filter (type_is "income") (ds1 ++ ds2))
      /\ r_totalTransactions r = Z.of_nat (List.length (ds1 ++ ds2)) + 1
      /\ (forall c row, In (c, row) (r_categoryStats r) ->
            sumExpense row =
              amount_sum (filter (fun d => type_is "expense" d
                                   && category_is c d) (ds1 ++ ds2))
            /\ sumIncome row =
              amount_sum (filter (fun d => type_is "income" d
                                   && category_is c d) (ds1 ++ ds2)))
      /\ (forall k row, In (k, row) (r_monthlyStats r) ->
            sumExpense row =
              amount_sum (filter (fun d => type_is "expense" d
                                   && in_month parse_date k d) (ds1 ++ ds2))
            /\ sumIncome row =
              amount_sum (filter (fun d => type_is "income" d
                                   && in_month parse_date k d) (ds1 ++ ds2))))
  /\ (forall expenseStats incomeStats t rows c rk,
         fst (route (get_category_stats Mem.collection)
                (ds1 ++ x :: ds2)%list)
         = Sent (mkResponse 200 (BCategoryStats expenseStats incomeStats)) ->
         (t, rows) = ("expense", expenseStats)
         \/ (t, rows) = ("income", incomeStats) ->
         In (c, rk) rows ->
         totalAmount rk =
           amount_sum (filter (fun d => type_is t d && category_is c d)
                              (ds1 ++ ds2))
         /\ categoryCount rk =
           Z.of_nat (List.length
                       (filter (fun d => type_is t d && category_is c d)
                               (ds1 ++ ds2)))
           + (if type_is t x && category_is c x then 1 else 0)).
Proof.
  intros Hn. apply not_number_adds_nothing in Hn. split.
  - intros st r H. apply finance_stats_sent in H.
    destruct H as [_ [ms [Hms ->]]].
    cbn [r_totalExpense r_totalIncome r_totalTransactions r_categoryStats
         r_monthlyStats stats_of].
    rewrite !amount_sum_without by exact Hn.
    split; [reflexivity|]. split; [reflexivity|]. split.
    { rewrite !length_app. simpl. lia. }
    split.
    + intros c row H. apply categoryStats_rows in H. destruct H as [-> ->].
      now rewrite !amount_sum_without by exact Hn.
    + intros k row H.
      destruct (monthlyStats_rows parse_date _ ms k row Hms H)
        as [_ [-> ->]].
      now rewrite !amount_sum_without by exact Hn.
  - intros xs ys t rows c rk H Ht Hin.
    rewrite category_stats_run in H. simpl in H.
    assert (Hp : category_pipeline t (ds1 ++ x :: ds2) = Ok rows).
    { inversion H; subst. destruct Ht as [E|E]; inversion E; reflexivity. }
    destruct (category_pipeline_rows _ _ _ _ _ Hp Hin) as [Hc Ha].
    rewrite Ha, Hc. split; [now apply amount_sum_without|].
    rewrite !filter_app, !length_app. simpl.
    destruct (type_is t x && category_is c x); simpl; lia.
Qed.

(** X16: for amounts that add without rounding, creating an expense record
    with a numeric amount raises the [totalExpense] of [/finance-stats] by
    that amount and [totalTransactions] by one, and leaves [totalIncome]
    as it was. *)
Theorem stats_after_create (parse_date : string -> option ISODate)
  (s : Mem.store) (generated : ObjectId) (finance : request_body) (a : Z)
  (st st' : Z) (r r' : stats_response) :
  ~ In (Mem.assigned_id generated finance) (ids s) ->
  exact_amounts
    (snd (route (post_finance Mem.collection generated finance) s)) ->
  type (fields finance) = Some (VStr "expense") ->
  amount (fields finance) = Some (VNum a) ->
  fst (route (get_finance_stats Mem.collection parse_date) s)
  = Sent (mkResponse st (BFinanceStats r)) ->
  fst (route (get_finance_stats Mem.collection parse_date)
         (snd (route (post_finance Mem.collection generated finance) s)))
  = Sent (mkResponse st' (BFinanceStats r')) ->
  r_totalExpense r' = r_totalExpense r + a
  /\ r_totalIncome r' = r_totalIncome r
  /\ r_totalTransactions r' = r_totalTransactions r + 1.
Proof.
  intros F _ Ht Ha H H'.
  assert (E : snd (route (post_finance Mem.collection generated finance) s)
              = (s ++ [mkDocument (Mem.assigned_id generated finance)
                                  (fields finance)])%list).
  { unfold route, post_finance, bind; simpl.
    now rewrite StoreFacts.insert_fresh. }
  rewrite E in H'.
  apply finance_stats_sent in H. destruct H as [_ [ms [_ ->]]].
  apply finance_stats_sent in H'. destruct H' as [_ [ms' [_ ->]]].
  cbn [r_totalExpense r_totalIncome r_totalTransactions stats_of].
  rewrite !filter_app, !amount_sum_app, length_app. simpl.
  unfold type_is; simpl. rewrite Ht. simpl.
  unfold amount_sum, Zsum; simpl. rewrite Ha. simpl.
  repeat split; lia.
Qed.

(** X17: for amounts that add without rounding, deleting a stored expense
    record with a numeric amount (the identifiers being distinct) lowers
    the [totalExpense] of [/finance-stats] by that amount and
    [totalTransactions] by one, and leaves [totalIncome] as it was. *)
Theorem stats_after_delete (parse_date : string -> option ISODate)
  (s : Mem.store) (id : string) (o : ObjectId) (d : document) (a : Z)
  (st st' : Z) (r r' : stats_response) :
  NoDup (ids s) ->
  exact_amounts s ->
  In d s ->
  new_ObjectId id = Some o ->
  _id d = Generated o ->
  type (doc d) = Some (VStr "expense") ->
  amount (doc d) = Some (VNum a) ->
  fst (route (get_finance_stats Mem.collection parse_date) s)
  = Sent (mkResponse st (BFinanceStats r)) ->
  fst (route (get_finance_stats Mem.collection parse_date)
         (snd (route (delete_finance_id Mem.collection id) s)))
  = Sent (mkResponse st' (BFinanceStats r')) ->
  r_totalExpense r' = r_totalExpense r - a
  /\ r_totalIncome r' = r_totalIncome r
  /\ r_totalTransactions r' = r_totalTransactions r - 1.
Proof.
  intros N _ Hd E Eo Ht Ha H H'.
  pose proof (StoreFacts.find_unique o d s N Hd Eo) as Hf.
  assert (Es : snd (route (delete_finance_id Mem.collection id) s)
               = Mem.remove_first o s).
  { unfold route, delete_finance_id, bind, construct_ObjectId.
    rewrite E. simpl. unfold Mem.mem_deleteOne. now rewrite Hf. }
  rewrite Es in H'.
  assert (P : Permutation s (d :: Mem.remove_first o s)).
  { clear - Hf. induction s as [|x s IH]; simpl in *; [discriminate|].
    destruct (Mem.has_id o x).
    - inversion Hf; subst. reflexivity.
    - rewrite (IH Hf) at 1. apply perm_swap. }
  apply finance_stats_sent in H. destruct H as [_ [ms [_ ->]]].
  apply finance_stats_sent in H'. destruct H' as [_ [ms' [_ ->]]].
  cbn [r_totalExpense r_totalIncome r_totalTransactions stats_of].
  rewrite !(amount_sum_filter_perm _ _ _ P), (Permutation_length P).
  assert (Te : type_is "expense" d = true)
    by (unfold type_is; now rewrite Ht).
  assert (Ti : type_is "income" d = false)
    by (unfold type_is; now rewrite Ht).
  cbn [filter List.length]. rewrite Te, Ti.
  change (amount_sum (d :: filter (type_is "expense")
                                  (Mem.remove_first o s)))
    with (sum_operand (amount (doc d))
          + amount_sum (filter (type_is "expense")
                               (Mem.remove_first o s))).
  rewrite Ha. cbn [sum_operand].
  repeat split; lia.
Qed.

(** ** The further theorems at the sample records *)

Lemma sample_ids_distinct : NoDup (ids Sample.records).
Proof. repeat constructor; simpl; intuition discriminate. Defined.

Lemma sample_other_absent :
  ~ In (Generated Sample.id_other) (ids Sample.records).
Proof. simpl; intros [H|[H|[H|[]]]]; discriminate H. Defined.

Lemma sample_amounts_exact : exact_amounts Sample.records.
Proof. unfold exact_amounts. vm_compute. discriminate. Defined.

(** The list route after a creation, at the sample records. *)
Lemma list_after_create_sample :
  ~ In (Mem.assigned_id Sample.id_other (mkBody None Sample.slashed))
       (ids Sample.records)
  /\ exists s' l,
      snd (route (post_finance Mem.collection Sample.id_other
                    (mkBody None Sample.slashed))
             Sample.records) = s'
      /\ route (get_finance Mem.collection) s'
         = (Sent (mkResponse 200 (BDocuments l)), s')
      /\ List.length l = 4%nat
      /\ In Sample.slashed_doc l.
Proof.
  split; [exact sample_other_absent|].
  destruct (proj2 (list_after_create Sample.records Sample.id_other
                     (mkBody None Sample.slashed) sample_other_absent))
    as [s' [l [H1 [H2 [H3 H4]]]]].
  exists s', l. split; [exact H1|]. split; [exact H2|].
  split; [exact H3|]. apply H4. right. reflexivity.
Defined.

(** The lookup of the stored salary record. *)
Lemma get_stored_record_sample :
  NoDup (ids Sample.records)
  /\ In Sample.salary_doc Sample.records
  /\ _id Sample.salary_doc = Generated Sample.id_salary
  /\ is_ObjectId Sample.id_salary = true
  /\ route (get_finance_id Mem.collection "65a100000000000000000002")
           Sample.records
     = (Sent (mkResponse 200 (BDocument Sample.salary_doc)), Sample.records).
Proof.
  assert (I : In Sample.salary_doc Sample.records)
    by (right; right; left; reflexivity).
  split; [exact sample_ids_distinct|]. split; [exact I|].
  split; [reflexivity|]. split; [reflexivity|].
  exact (get_stored_record Sample.records Sample.salary_doc Sample.id_salary
           sample_ids_distinct I eq_refl eq_refl).
Defined.

(** The deletion of the stored lunch record. *)
Lemma delete_stored_record_sample :
  NoDup (ids Sample.records)
  /\ In Sample.lunch_doc Sample.records
  /\ new_ObjectId "65a100000000000000000001" = Some Sample.id_lunch
  /\ _id Sample.lunch_doc = Generated Sample.id_lunch
  /\ exists s',
      route (delete_finance_id Mem.collection "65a100000000000000000001")
            Sample.records
      = (Sent (mkResponse 200 (BDeleted {| deletedCount := 1 |})), s')
      /\ ~ In (_id Sample.lunch_doc) (ids s')
      /\ route (delete_finance_id Mem.collection "65a100000000000000000001")
               s'
         = (Sent (mkResponse 200 (BDeleted {| deletedCount := 0 |})), s').
Proof.
  assert (I : In Sample.lunch_doc Sample.records) by (left; reflexivity).
  split; [exact sample_ids_distinct|]. split; [exact I|].
  split; [reflexivity|]. split; [reflexivity|].
  destruct (delete_stored_record Sample.records "65a100000000000000000001"
              Sample.id_lunch Sample.lunch_doc sample_ids_distinct I
              eq_refl eq_refl)
    as [s' [H1 [H2 [_ [_ [_ H3]]]]]].
  exists s'. repeat split; assumption.
Defined.

(** An update of an identifier the sample store does not hold. *)
Lemma patch_absent_sample :
  new_ObjectId "65a1000000000000000000ff" = Some Sample.id_other
  /\ ~ In (Generated Sample.id_other) (ids Sample.records)
  /\ route (patch_finance_id Mem.collection "65a1000000000000000000ff"
              Sample.retitle) Sample.records
     = (Sent (mkResponse 200
                (BUpdated {| matchedCount := 0; modifiedCount := 0 |})),
        Sample.records).
Proof.
  split; [reflexivity|]. split; [exact sample_other_absent|].
  exact (patch_absent Sample.records "65a1000000000000000000ff"
           Sample.id_other Sample.retitle eq_refl sample_other_absent).
Defined.

(** The same patch twice on the stored lunch record. *)
Lemma patch_twice_sample :
  new_ObjectId "65a100000000000000000001" = Some Sample.id_lunch
  /\ exists ack s1,
      route (patch_finance_id Mem.collection "65a100000000000000000001"
               Sample.retitle) Sample.records
      = (Sent (mkResponse 200 (BUpdated ack)), s1)
      /\ route (patch_finance_id Mem.collection "65a100000000000000000001"
                  Sample.retitle) s1
         = (Sent (mkResponse 200
                    (BUpdated {| matchedCount := matchedCount ack;
                                 modifiedCount := 0 |})), s1).
Proof.
  split; [reflexivity|].
  exact (patch_twice Sample.records "65a100000000000000000001"
           Sample.id_lunch Sample.retitle eq_refl).
Defined.

(** The id [abc] sent to the deletion and update routes. *)
Lemma delete_patch_malformed_id_sample :
  new_ObjectId "abc" = None
  /\ route (delete_finance_id Mem.collection "abc") Sample.records
     = (Uncaught BSONError, Sample.records)
  /\ route (patch_finance_id Mem.collection "abc" Sample.retitle)
           Sample.records
     = (Uncaught BSONError, Sample.records).
Proof.
  split; [reflexivity|].
  destruct (delete_patch_malformed_id Mem.store Mem.collection "abc"
              Sample.records eq_refl) as [H1 H2].
  split; [exact H1|exact (H2 Sample.retitle)].
Defined.

(** The identifiers of the sample records after each kind of write: a
    creation under an identifier already stored, one under an [_id] sent
    by the client, a deletion and an update. *)
Lemma ids_stay_distinct_sample :
  NoDup (ids Sample.records)
  /\ NoDup (ids (snd (route (post_finance Mem.collection Sample.id_lunch
                               (mkBody None Sample.slashed))
                            Sample.records)))
  /\ NoDup (ids (snd (route (post_finance Mem.collection Sample.id_other
                               (mkBody (Some (VStr "abc")) Sample.slashed))
                            Sample.records)))
  /\ NoDup (ids (snd (route (delete_finance_id Mem.collection
                               "65a100000000000000000002")
                            Sample.records)))
  /\ ids (snd (route (patch_finance_id Mem.collection
                        "65a100000000000000000002" Sample.retitle)
                     Sample.records))
     = ids Sample.records.
Proof.
  destruct (ids_stay_distinct Sample.records sample_ids_distinct)
    as [H1 [H2 H3]].
  split; [exact sample_ids_distinct|]. split; [apply H1|].
  split; [apply H1|]. split; [apply H2|apply H3].
Defined.

(** The lookup route against a server that cannot be reached. *)
Lemma record_routes_sample :
  new_ObjectId "65a100000000000000000001" = Some Sample.id_lunch
  /\ findOne Down.collection Sample.id_lunch tt
     = (Throw Down.unavailable, tt)
  /\ route (get_finance_id Down.collection "65a100000000000000000001") tt
     = (Uncaught Down.unavailable, tt)
  /\ route (get_finance Down.collection) tt
     = (Uncaught Down.unavailable, tt).
Proof.
  destruct (record_routes_send_only_200 unit Down.collection tt)
    as [_ [H2 [H3 _]]].
  split; [reflexivity|]. split; [reflexivity|]. split.
  - exact (H3 "65a100000000000000000001" Sample.id_lunch Down.unavailable
              tt eq_refl eq_refl).
  - exact (H2 Down.unavailable tt eq_refl).
Defined.

(** The statistics route answers for the sample records and fails once a
    date with slashes is stored. *)
Lemma finance_stats_answers_sample :
  (Sample.records <> []
   /\ forallb (date_accepted Strict.parse_date) Sample.records = true)
  /\ (exists r,
         fst (route (get_finance_stats Mem.collection Strict.parse_date)
                Sample.records)
         = Sent (mkResponse 200 (BFinanceStats r)))
  /\ forallb (date_accepted Strict.parse_date)
             (Sample.slashed_doc :: Sample.records) = false
  /\ fst (route (get_finance_stats Mem.collection Strict.parse_date)
            (Sample.slashed_doc :: Sample.records))
     = Sent (mkResponse 500 (BError "Error fetching finance stats")).
Proof.
  assert (A : Sample.records <> []
              /\ forallb (date_accepted Strict.parse_date) Sample.records
                 = true) by (split; [discriminate|reflexivity]).
  split; [exact A|]. split.
  - exact (proj2 (proj1 (finance_stats_answers Strict.parse_date
                           Sample.records)) A).
  - split; [reflexivity|].
    exact (proj2 (proj2 (finance_stats_answers Strict.parse_date
                           (Sample.slashed_doc :: Sample.records)))
             (or_intror eq_refl)).
Defined.

(** The month rows when an undated record is stored with the samples. *)
Lemma no_date_row_first_sample :
  In Sample.undated_doc (Sample.lunch_doc :: Sample.undated_doc :: nil)
  /\ no_date Sample.undated_doc = true
  /\ exists r row rest,
      fst (route (get_finance_stats Mem.collection Strict.parse_date)
             [Sample.lunch_doc; Sample.undated_doc])
      = Sent (mkResponse 200 (BFinanceStats r))
      /\ r_monthlyStats r = (None, row) :: rest
      /\ sumExpense row = 5.
Proof.
  assert (I : In Sample.undated_doc [Sample.lunch_doc; Sample.undated_doc])
    by (right; left; reflexivity).
  split; [exact I|]. split; [reflexivity|].
  eexists. 
  destruct (no_date_row_first Strict.parse_date
              [Sample.lunch_doc; Sample.undated_doc] Sample.undated_doc
              200 _ eq_refl I eq_refl) as [row [rest [H1 [_ [H2 _]]]]].
  exists row, rest. split; [reflexivity|]. split; [exact H1|].
  rewrite H2. reflexivity.
Defined.

(** The rows of the sample statistics add up. *)
Lemma rows_add_up_sample :
  exact_amounts Sample.records
  /\ exists r,
      fst (route (get_finance_stats Mem.collection Strict.parse_date)
             Sample.records)
      = Sent (mkResponse 200 (BFinanceStats r))
      /\ column_sum sumExpense (r_categoryStats r) = r_totalExpense r
      /\ column_sum sumExpense (r_monthlyStats r) = r_totalExpense r.
Proof.
  split; [exact sample_amounts_exact|].
  eexists. split; [reflexivity|].
  destruct (rows_add_up_to_totals Strict.parse_date Sample.records 200 _
              sample_amounts_exact eq_refl) as [H1 [_ [H3 _]]].
  split; [exact H1|exact H3].
Defined.

(** The category rows of the sample statistics. *)
Lemma category_rows_sample :
  exists r,
    fst (route (get_finance_stats Mem.collection Strict.parse_date)
           Sample.records)
    = Sent (mkResponse 200 (BFinanceStats r))
    /\ NoDup (map fst (r_categoryStats r))
    /\ In (VStr "salary") (map fst (r_categoryStats r)).
Proof.
  eexists. split; [reflexivity|].
  destruct (category_rows_one_per_category Strict.parse_date Sample.records
              200 _ eq_refl) as [H1 H2].
  split; [exact H1|]. apply H2. exists Sample.salary_doc.
  split; [right; right; left; reflexivity|reflexivity].
Defined.

(** Two orders of the same two records: the rows. *)
Lemma rows_order_independent_sample :
  Permutation [Sample.lunch_doc; Sample.salary_doc]
              [Sample.salary_doc; Sample.lunch_doc]
  /\ exists r r',
      fst (route (get_finance_stats Mem.collection Strict.parse_date)
             [Sample.lunch_doc; Sample.salary_doc])
      = Sent (mkResponse 200 (BFinanceStats r))
      /\ fst (route (get_finance_stats Mem.collection Strict.parse_date)
                [Sample.salary_doc; Sample.lunch_doc])
         = Sent (mkResponse 200 (BFinanceStats r'))
      /\ r_totalTransactions r' = r_totalTransactions r
      /\ map fst (r_monthlyStats r') = map fst (r_monthlyStats r)
      /\ Permutation (map fst (r_categoryStats r))
                     (map fst (r_categoryStats r')).
Proof.
  split; [apply perm_swap|].
  eexists.
  destruct (proj1 (finance_stats_rows_order_independent Strict.parse_date
                     [Sample.lunch_doc; Sample.salary_doc]
                     [Sample.salary_doc; Sample.lunch_doc]
                     (perm_swap _ _ _)) 200 _ eq_refl)
    as [r' [H1 [H2 [H3 H4]]]].
  exists r'. split; [reflexivity|]. split; [exact H1|].
  split; [exact H2|]. split; [exact H3|exact H4].
Defined.

(** Two orders of the same two records: the sums. *)
Lemma order_independent_sample :
  Permutation [Sample.lunch_doc; Sample.salary_doc]
              [Sample.salary_doc; Sample.lunch_doc]
  /\ exact_amounts [Sample.lunch_doc; Sample.salary_doc]
  /\ exists r r',
      fst (route (get_finance_stats Mem.collection Strict.parse_date)
             [Sample.lunch_doc; Sample.salary_doc])
      = Sent (mkResponse 200 (BFinanceStats r))
      /\ fst (route (get_finance_stats Mem.collection Strict.parse_date)
                [Sample.salary_doc; Sample.lunch_doc])
         = Sent (mkResponse 200 (BFinanceStats r'))
      /\ r_monthlyStats r' = r_monthlyStats r
      /\ Permutation (r_categoryStats r) (r_categoryStats r').
Proof.
  assert (X : exact_amounts [Sample.lunch_doc; Sample.salary_doc])
    by (unfold exact_amounts; vm_compute; discriminate).
  split; [apply perm_swap|]. split; [exact X|].
  eexists.
  destruct (proj1 (finance_stats_order_independent Strict.parse_date
                     [Sample.lunch_doc; Sample.salary_doc]
                     [Sample.salary_doc; Sample.lunch_doc]
                     (perm_swap _ _ _) X) 200 _ eq_refl)
    as [r' [H1 [_ [_ [_ [H2 H3]]]]]].
  exists r'. split; [reflexivity|]. split; [exact H1|].
  split; [exact H2|exact H3].
Defined.

(** An amount sent as text among the sample records. *)
Lemma amount_not_a_number_sample :
  amount_is_number Sample.quoted_doc = false
  /\ exists r,
      fst (route (get_finance_stats Mem.collection Strict.parse_date)
             ([Sample.lunch_doc] ++ Sample.quoted_doc
                                 :: [Sample.salary_doc])%list)
      = Sent (mkResponse 200 (BFinanceStats r))
      /\ r_totalExpense r = 100
      /\ r_totalTransactions r = 3
      /\ r_categoryStats r = [(VStr "food", mkSums 100 0);
                              (VStr "salary", mkSums 0 50)].
Proof.
  split; [reflexivity|]. eexists. split; [reflexivity|].
  destruct (proj1 (amount_not_a_number_adds_nothing Strict.parse_date
                     [Sample.lunch_doc] [Sample.salary_doc]
                     Sample.quoted_doc eq_refl) 200 _ eq_refl)
    as [H1 [_ [H3 _]]].
  rewrite H1, H3. repeat split; reflexivity.
Defined.

(** The totals before and after the creation of an expense of 12. *)
Lemma stats_after_create_sample :
  ~ In (Mem.assigned_id Sample.id_other (mkBody None Sample.coffee))
       (ids Sample.records)
  /\ exact_amounts
       (snd (route (post_finance Mem.collection Sample.id_other
                      (mkBody None Sample.coffee)) Sample.records))
  /\ type Sample.coffee = Some (VStr "expense")
  /\ amount Sample.coffee = Some (VNum 12)
  /\ exists r r',
      fst (route (get_finance_stats Mem.collection Strict.parse_date)
             Sample.records)
      = Sent (mkResponse 200 (BFinanceStats r))
      /\ fst (route (get_finance_stats Mem.collection Strict.parse_date)
                (snd (route (post_finance Mem.collection Sample.id_other
                               (mkBody None Sample.coffee))
                        Sample.records)))
         = Sent (mkResponse 200 (BFinanceStats r'))
      /\ r_totalExpense r' = r_totalExpense r + 12
      /\ r_totalTransactions r' = r_totalTransactions r + 1.
Proof.
  assert (X : exact_amounts
                (snd (route (post_finance Mem.collection Sample.id_other
                               (mkBody None Sample.coffee)) Sample.records)))
    by (unfold exact_amounts; vm_compute; discriminate).
  split; [exact sample_other_absent|]. split; [exact X|].
  split; [reflexivity|]. split; [reflexivity|].
  eexists _, _. split; [reflexivity|]. split; [reflexivity|].
  destruct (stats_after_create Strict.parse_date Sample.records
              Sample.id_other (mkBody None Sample.coffee) 12 200 200 _ _
              sample_other_absent X eq_refl eq_refl eq_refl eq_refl)
    as [H1 [_ H3]].
  split; [exact H1|exact H3].
Defined.

(** The totals before and after the deletion of the lunch of 100. *)
Lemma stats_after_delete_sample :
  NoDup (ids Sample.records)
  /\ exact_amounts Sample.records
  /\ In Sample.lunch_doc Sample.records
  /\ new_ObjectId "65a100000000000000000001" = Some Sample.id_lunch
  /\ _id Sample.lunch_doc = Generated Sample.id_lunch
  /\ exists r r',
      fst (route (get_finance_stats Mem.collection Strict.parse_date)
             Sample.records)
      = Sent (mkResponse 200 (BFinanceStats r))
      /\ fst (route (get_finance_stats Mem.collection Strict.parse_date)
                (snd (route (delete_finance_id Mem.collection
                               "65a100000000000000000001")
                        Sample.records)))
         = Sent (mkResponse 200 (BFinanceStats r'))
      /\ r_totalExpense r' = r_totalExpense r - 100
      /\ r_totalTransactions r' = r_totalTransactions r - 1.
Proof.
  assert (I : In Sample.lunch_doc Sample.records) by (left; reflexivity).
  split; [exact sample_ids_distinct|]. split; [exact sample_amounts_exact|].
  split; [exact I|]. split; [reflexivity|]. split; [reflexivity|].
  eexists _, _. split; [reflexivity|]. split; [reflexivity|].
  destruct (stats_after_delete Strict.parse_date Sample.records
              "65a100000000000000000001" Sample.id_lunch Sample.lunch_doc
              100 200 200 _ _
              sample_ids_distinct sample_amounts_exact I eq_refl eq_refl
              eq_refl eq_refl eq_refl eq_refl)
    as [H1 [_ H3]].
  split; [exact H1|exact H3].
Defined.
